(** * Pet Store Service: the request handlers of [service/routes.py]

    A shallow embedding of the Flask handlers ([list_pets], [get_pets],
    [create_pets], [update_pets], [delete_pets], [purchase_pets] and the
    helper [check_content_type]) as functions in a small state-and-abort
    monad over the record store, followed by the properties of the
    handlers.

    [service/routes.py] is the only module at hand.  What it imports
    ([service.models.Pet], the [status] constants, the error handlers of the
    application) is written after the specification of the service; each
    such definition says so in its comment. *)

From Stdlib Require Import Ascii ZArith.
From stdpp Require Import gmap strings list fin_maps fin_sets infinite.

Local Open Scope Z_scope.

(* ===================================================================== *)
(** * Python values used by the handlers                                  *)
(* ===================================================================== *)

Module Py.

(** [c.lower()] on one character.  Strings are sequences of bytes here;
    the letters [A]..[Z] (65..90) move to [a]..[z], every other byte is
    kept.  (Python also lowers letters outside ASCII, but none of them to
    a letter of the truthy tokens of [routes.py].) *)
Definition lower_ascii (c : ascii) : ascii :=
  let n := Ascii.N_of_ascii c in
  if ((65 <=? n) && (n <=? 90))%N then Ascii.ascii_of_N (n + 32) else c.

(** [s.lower()] *)
Fixpoint lower (s : string) : string :=
  match s with
  | EmptyString => EmptyString
  | String c s' => String (lower_ascii c) (lower s')
  end.

(** The value of [x] under [if x:] for [x] a [str] or [None], as returned
    by [dict.get]: [None] and the empty string are false.  The result
    keeps the string of a true value. *)
Definition truthy (x : option string) : option string :=
  match x with
  | Some EmptyString => None
  | Some s => Some s
  | None => None
  end.

(** [MultiDict.get(key)]: the first value stored under [key], or [None]. *)
Fixpoint get (key : string) (d : list (string * string)) : option string :=
  match d with
  | [] => None
  | (k, v) :: d' => if decide (k = key) then Some v else get key d'
  end.

(** The dictionary without its entries for [key]. *)
Definition without (key : string) (d : list (string * string))
  : list (string * string) :=
  filter (λ kv, kv.1 ≠ key) d.

End Py.

(** JSON values: what [request.get_json()] returns and [jsonify] takes.  An
    object is a Python [dict]. *)
#[warnings="-register-all"]
Inductive json : Type :=
  | JNull
  | JBool (b : bool)
  | JNum (z : Z)
  | JStr (s : string)
  | JArr (l : list json)
  | JObj (m : gmap string json).

(** [x in ["yes", "y", "true", "t", "1"]] *)
Definition truthy_tokens : list string := ["yes"; "y"; "true"; "t"; "1"].

(** [s.lower() in ["yes", "y", "true", "t", "1"]]: the expression of
    [list_pets] (line 67) and of [create_pets] (line 126). *)
Definition parse_available (s : string) : bool :=
  bool_decide (Py.lower s ∈ truthy_tokens).

(* ===================================================================== *)
(** * HTTP status codes                                                   *)
(* ===================================================================== *)

(** Modelled from the spec: the module [status] imported by [routes.py] is
    not at hand; the numbers are those the specification gives with each
    name. *)
Module status.
Definition HTTP_200_OK : Z := 200.
Definition HTTP_201_CREATED : Z := 201.
Definition HTTP_204_NO_CONTENT : Z := 204.
Definition HTTP_400_BAD_REQUEST : Z := 400.
Definition HTTP_404_NOT_FOUND : Z := 404.
Definition HTTP_409_CONFLICT : Z := 409.
Definition HTTP_415_UNSUPPORTED_MEDIA_TYPE : Z := 415.
Definition HTTP_500_INTERNAL_SERVER_ERROR : Z := 500.
End status.

(* ===================================================================== *)
(** * The Pet entity and the record store ([service.models])              *)
(* ===================================================================== *)

(** Modelled from the spec: the enumeration of [gender], a small fixed set
    of values (MALE, FEMALE, UNKNOWN), serialised by name. *)
Inductive Gender : Type := MALE | FEMALE | UNKNOWN.

#[global] Instance Gender_eq_dec : EqDecision Gender.
Proof. solve_decision. Defined.

Definition Gender_name (g : Gender) : string :=
  match g with MALE => "MALE" | FEMALE => "FEMALE" | UNKNOWN => "UNKNOWN" end.

Definition Gender_of_name (s : string) : option Gender :=
  if decide (s = "MALE") then Some MALE
  else if decide (s = "FEMALE") then Some FEMALE
  else if decide (s = "UNKNOWN") then Some UNKNOWN
  else None.

(** Modelled from the spec: the four mutable fields of a Pet, which are what
    the store keeps under the Pet's id. *)
Record Fields : Type := mkFields {
  name : string;
  category : string;
  available : bool;
  gender : Gender;
}.

(** Modelled from the spec: a Pet object of [service.models]; [id] is [None]
    until the store has assigned one. *)
Record PetT : Type := mkPet {
  id : option string;
  fields : Fields;
}.

#[global] Instance Fields_eq_dec : EqDecision Fields.
Proof. solve_decision. Defined.
#[global] Instance PetT_eq_dec : EqDecision PetT.
Proof. solve_decision. Defined.

(** [pet.id = v] and [pet.available = v] *)
Definition set_id (v : option string) (pet : PetT) : PetT :=
  {| id := v; fields := fields pet |}.

Definition set_available (v : bool) (pet : PetT) : PetT :=
  {| id := id pet;
     fields := {| name := name (fields pet);
                  category := category (fields pet);
                  available := v;
                  gender := gender (fields pet) |} |}.

(** The calls a handler makes on the record store through
    [service.models.Pet] (the lookups, [create], [update], [delete]) and its
    calls of [deserialize], in the order they are made.  The history is kept
    next to the store so that a property can speak of which of these a
    handler called, and of which it did not.  [serialize], which only reads
    the Pet it is called on, is not part of the history: where a handler
    calls it is seen in the body of the response. *)
Inductive Call : Type :=
  | call_all
  | call_find (pet_id : string)
  | call_find_by_category (c : string)
  | call_find_by_name (n : string)
  | call_find_by_availability (a : bool)
  | call_find_by_gender (g : string)
  | call_deserialize (pet : PetT) (data : json)
  | call_create (pet : PetT)
  | call_update (pet : PetT)
  | call_delete (pet : PetT).

(** The calls that write to the store. *)
Definition is_write (c : Call) : bool :=
  match c with
  | call_create _ | call_update _ | call_delete _ => true
  | _ => false
  end.

(** The state a handler runs in: the persisted records by id, and the
    history of calls. *)
Record World : Type := mkWorld {
  docs : gmap string Fields;
  calls : list Call;
}.

(** ** The handler monad: state, and [abort] *)

Inductive Outcome (A : Type) : Type :=
  | Done (a : A)
  | Aborted (code : Z) (message : string).
Arguments Done {A} a.
Arguments Aborted {A} code message.

Definition Flask (A : Type) : Type := World → Outcome A * World.

#[global] Instance Flask_ret : MRet Flask := λ A a w, (Done a, w).

#[global] Instance Flask_bind : MBind Flask := λ A B k m w,
  match m w with
  | (Done a, w') => k a w'
  | (Aborted code message, w') => (Aborted code message, w')
  end.

(** [abort(code, message)] of Flask: raises the HTTP error. *)
Definition abort {A} (code : Z) (message : string) : Flask A :=
  λ w, (Aborted code message, w).

Definition record (c : Call) : Flask unit :=
  λ w, (Done tt, {| docs := docs w; calls := calls w ++ [c] |}).

Definition get_docs : Flask (gmap string Fields) := λ w, (Done (docs w), w).

Definition put_docs (d : gmap string Fields) : Flask unit :=
  λ w, (Done tt, {| docs := d; calls := calls w |}).

(** ** [service.models.Pet] *)

Module Pet.

(** Modelled from the spec: [Pet.serialize()], a JSON-compatible mapping
    with the five fields; the gender goes by its name. *)
Definition serialize (pet : PetT) : json :=
  JObj (<["id" := from_option JStr JNull (id pet)]>
       (<["name" := JStr (name (fields pet))]>
       (<["category" := JStr (category (fields pet))]>
       (<["available" := JBool (available (fields pet))]>
       (<["gender" := JStr (Gender_name (gender (fields pet)))]> ∅))))).

(** Modelled from the spec: the fields [Pet.deserialize(data)] reads from a
    mapping; [None] stands for the validation error raised when a required
    field is missing or of the wrong type. *)
Definition fields_of (data : json) : option Fields :=
  match data with
  | JObj m =>
      match m !! "name", m !! "category", m !! "available", m !! "gender" with
      | Some (JStr n), Some (JStr c), Some (JBool a), Some (JStr g) =>
          match Gender_of_name g with
          | Some g' =>
              Some {| name := n; category := c; available := a; gender := g' |}
          | None => None
          end
      | _, _, _, _ => None
      end
  | _ => None
  end.

(** Modelled from the spec: the id a mapping carries.  A client-supplied id
    is accepted as it is; a mapping without one leaves the id of the record
    alone. *)
Definition id_of (current : option string) (data : json)
  : option string :=
  match data with
  | JObj m => match m !! "id" with Some (JStr i) => Some i | _ => current end
  | _ => current
  end.

(** Modelled from the spec: [Pet()], a new object without id.  Its fields
    are placeholders: [deserialize] replaces all four or fails. *)
Definition new : PetT :=
  {| id := None;
     fields := {| name := ""; category := ""; available := true;
                  gender := UNKNOWN |} |}.

Definition of_doc (kv : string * Fields) : PetT :=
  {| id := Some kv.1; fields := kv.2 |}.

(** Modelled from the spec: [Pet.all()], every record of the store. *)
Definition all_of (d : gmap string Fields) : list PetT :=
  of_doc <$> map_to_list d.

Definition all : Flask (list PetT) :=
  record call_all;; d ← get_docs; mret (all_of d).

(** Modelled from the spec: [Pet.find(pet_id)], the record of that id or
    [None]. *)
Definition find (pet_id : string) : Flask (option PetT) :=
  record (call_find pet_id);;
  d ← get_docs;
  mret (mkPet (Some pet_id) <$> d !! pet_id).

(** Modelled from the spec: the lookups by field, each an exact match. *)
Definition find_by_category (c : string) : Flask (list PetT) :=
  record (call_find_by_category c);;
  d ← get_docs;
  mret (filter (λ pet, category (fields pet) = c) (all_of d)).

Definition find_by_name (n : string) : Flask (list PetT) :=
  record (call_find_by_name n);;
  d ← get_docs;
  mret (filter (λ pet, name (fields pet) = n) (all_of d)).

Definition find_by_availability (a : bool) : Flask (list PetT) :=
  record (call_find_by_availability a);;
  d ← get_docs;
  mret (filter (λ pet, available (fields pet) = a) (all_of d)).

Definition find_by_gender (g : string) : Flask (list PetT) :=
  record (call_find_by_gender g);;
  d ← get_docs;
  mret (filter (λ pet, Gender_name (gender (fields pet)) = g) (all_of d)).

(** Modelled from the spec: [pet.deserialize(data)].  The validation
    error is surfaced by the application's error handlers as HTTP 400. *)
Definition deserialize (pet : PetT) (data : json) : Flask PetT :=
  record (call_deserialize pet data);;
  match fields_of data with
  | Some f => mret {| id := id_of (id pet) data; fields := f |}
  | None => abort status.HTTP_400_BAD_REQUEST "Invalid pet: bad or missing data"
  end.

(** Modelled from the spec: [pet.create()]; the store assigns an id that
    no record has. *)
Definition create (pet : PetT) : Flask PetT :=
  record (call_create pet);;
  d ← get_docs;
  let new_id := fresh (dom d) in
  put_docs (<[new_id := fields pet]> d);;
  mret (set_id (Some new_id) pet).

(** Modelled from the spec: [pet.update()], the record under the Pet's id
    is replaced. *)
Definition update (pet : PetT) : Flask unit :=
  record (call_update pet);;
  d ← get_docs;
  match id pet with
  | Some k => put_docs (<[k := fields pet]> d)
  | None => mret tt
  end.

(** Modelled from the spec: [pet.delete()]. *)
Definition delete (pet : PetT) : Flask unit :=
  record (call_delete pet);;
  d ← get_docs;
  match id pet with
  | Some k => put_docs (base.delete k d)
  | None => mret tt
  end.

End Pet.


(* ===================================================================== *)
(** * Requests and responses                                              *)
(* ===================================================================== *)

(** What the handlers read of Flask's [request]:
    [request.args] (the query string, a multi-dictionary),
    [request.headers.get("Content-Type")],
    [request.form] (the fields of a form post),
    [request.get_json()] ([None]: the body is not JSON)
    and the root of the URLs that [url_for(..., _external=True)] builds. *)
Record Request : Type := mkRequest {
  args : list (string * string);
  content_type : option string;
  form : list (string * string);
  json_body : option json;
  url_root : string;
}.

Inductive Body : Type :=
  | text (s : string)
  | jsonify (j : json).

Record Response : Type := mkResponse {
  status_code : Z;
  body : Body;
  headers : list (string * string);
}.

(** [make_response(body, code)], also the tuple [body, code] a handler may
    return instead. *)
Definition make_response (b : Body) (code : Z) : Response :=
  {| status_code := code; body := b; headers := [] |}.

(** [request.form[key]]: a missing key raises werkzeug's
    [BadRequestKeyError], an HTTP 400. *)
Definition form_item (req : Request) (key : string) : Flask string :=
  match Py.get key (form req) with
  | Some v => mret v
  | None => abort status.HTTP_400_BAD_REQUEST "Bad Request"
  end.

(** [request.get_json()]: a body that does not parse raises an HTTP 400. *)
Definition get_json (req : Request) : Flask json :=
  match json_body req with
  | Some j => mret j
  | None => abort status.HTTP_400_BAD_REQUEST "Bad Request"
  end.

(** [url_for("get_pets", pet_id=pet_id, _external=True)]; without a
    [pet_id] no URL can be built, which Flask answers with HTTP 500. *)
Definition url_for_get_pets (req : Request) (pet_id : option string)
  : Flask string :=
  match pet_id with
  | Some k => mret (url_root req +:+ "/pets/" +:+ k)
  | None => abort status.HTTP_500_INTERNAL_SERVER_ERROR "BuildError"
  end.

(* ===================================================================== *)
(** * The handlers of [service/routes.py]                                 *)
(* ===================================================================== *)

(** [check_content_type(media_type)], lines 219-233 *)
Definition check_content_type (req : Request) (media_type : string)
  : Flask unit :=
  let content_type := content_type req in
  match Py.truthy content_type with
  | None => abort status.HTTP_400_BAD_REQUEST "No Content-Type set"
  | Some content_type =>
      if decide (content_type = media_type) then mret tt
      else abort status.HTTP_415_UNSUPPORTED_MEDIA_TYPE
                 ("Content-Type must be " +:+ media_type)
  end.

(** The [if]/[elif] chain of [list_pets], lines 59-73 *)
Definition select_pets (category name available gender : option string)
  : Flask (list PetT) :=
  match Py.truthy category with
  | Some category => Pet.find_by_category category
  | None =>
  match Py.truthy name with
  | Some name => Pet.find_by_name name
  | None =>
  match Py.truthy available with
  | Some available =>
      let is_available := parse_available available in
      Pet.find_by_availability is_available
  | None =>
  match Py.truthy gender with
  | Some gender => Pet.find_by_gender gender
  | None => Pet.all
  end end end end.

(** [list_pets()], lines 47-77 *)
Definition list_pets (req : Request) : Flask Response :=
  let category := Py.get "category" (args req) in
  let name := Py.get "name" (args req) in
  let available := Py.get "available" (args req) in
  let gender := Py.get "gender" (args req) in
  pets ← select_pets category name available gender;
  let results := Pet.serialize <$> pets in
  mret (make_response (jsonify (JArr results)) status.HTTP_200_OK).

(** [get_pets(pet_id)], lines 83-97 *)
Definition get_pets (pet_id : string) : Flask Response :=
  pet ← Pet.find pet_id;
  match pet with
  | None =>
      abort status.HTTP_404_NOT_FOUND
            ("Pet with id '" +:+ pet_id +:+ "' was not found.")
  | Some pet =>
      mret (make_response (jsonify (Pet.serialize pet)) status.HTTP_200_OK)
  end.

(** The body of the request as the mapping [data] of [create_pets],
    lines 117-136 *)
Definition create_data (req : Request) (content_type : string) : Flask json :=
  if decide (content_type = "application/x-www-form-urlencoded") then
    name ← form_item req "name";
    category ← form_item req "category";
    available ← form_item req "available";
    gender ← form_item req "gender";
    mret (JObj (<["name" := JStr name]>
               (<["category" := JStr category]>
               (<["available" := JBool (parse_available available)]>
               (<["gender" := JStr gender]> ∅)))))
  else if decide (content_type = "application/json") then
    get_json req
  else
    let message := "Unsupported Content-Type: " +:+ content_type in
    abort status.HTTP_400_BAD_REQUEST message.

(** [create_pets()], lines 103-147 *)
Definition create_pets (req : Request) : Flask Response :=
  let content_type := content_type req in
  match Py.truthy content_type with
  | None => abort status.HTTP_400_BAD_REQUEST "No Content-Type set"
  | Some content_type =>
      data ← create_data req content_type;
      let pet := Pet.new in
      pet ← Pet.deserialize pet data;
      pet ← Pet.create pet;
      location_url ← url_for_get_pets req (id pet);
      mret {| status_code := status.HTTP_201_CREATED;
              body := jsonify (Pet.serialize pet);
              headers := [("Location", location_url)] |}
  end.

(** [update_pets(pet_id)], lines 153-172 *)
Definition update_pets (req : Request) (pet_id : string) : Flask Response :=
  check_content_type req "application/json";;
  pet ← Pet.find pet_id;
  match pet with
  | None =>
      abort status.HTTP_404_NOT_FOUND
            ("Pet with id '" +:+ pet_id +:+ "' was not found.")
  | Some pet =>
      data ← get_json req;
      pet ← Pet.deserialize pet data;
      let pet := set_id (Some pet_id) pet in
      Pet.update pet;;
      mret (make_response (jsonify (Pet.serialize pet)) status.HTTP_200_OK)
  end.

(** [delete_pets(pet_id)], lines 178-191 *)
Definition delete_pets (pet_id : string) : Flask Response :=
  pet ← Pet.find pet_id;
  match pet with
  | Some pet => Pet.delete pet
  | None => mret tt
  end;;
  mret (make_response (text "") status.HTTP_204_NO_CONTENT).

(** [purchase_pets(pet_id)], lines 197-211 *)
Definition purchase_pets (pet_id : string) : Flask Response :=
  pet ← Pet.find pet_id;
  match pet with
  | None =>
      abort status.HTTP_404_NOT_FOUND
            ("Pet with id '" +:+ pet_id +:+ "' was not found.")
  | Some pet =>
      if negb (available (fields pet)) then
        abort status.HTTP_409_CONFLICT
              ("Pet with id '" +:+ pet_id +:+ "' is not available.")
      else
        let pet := set_available false pet in
        Pet.update pet;;
        mret (make_response (jsonify (Pet.serialize pet)) status.HTTP_200_OK)
  end.

(** The routes of the service: method and path of a request. *)
Inductive Route : Type :=
  | GET_pets
  | GET_pet (pet_id : string)
  | POST_pets
  | PUT_pet (pet_id : string)
  | DELETE_pet (pet_id : string)
  | PUT_purchase (pet_id : string).

Definition handle (r : Route) (req : Request) : Flask Response :=
  match r with
  | GET_pets => list_pets req
  | GET_pet pet_id => get_pets pet_id
  | POST_pets => create_pets req
  | PUT_pet pet_id => update_pets req pet_id
  | DELETE_pet pet_id => delete_pets pet_id
  | PUT_purchase pet_id => purchase_pets pet_id
  end.


(* ===================================================================== *)
(** * Vocabulary of the properties                                        *)
(* ===================================================================== *)

(** The HTTP status the client receives. *)
Definition status_of (o : Outcome Response) : Z :=
  match o with
  | Done resp => status_code resp
  | Aborted code _ => code
  end.

(** The calls recorded between two states: those on the store, and those
    of [deserialize]. *)
Definition new_calls (w w' : World) : list Call :=
  drop (length (calls w)) (calls w').

(** [sub in s] for two strings *)
Definition contains (s sub : string) : Prop :=
  ∃ pre post : string, s = pre +:+ sub +:+ post.

(** The response of a handler that returns one serialized Pet, and of the
    list handler. *)
Definition pet_response (pet : PetT) : Response :=
  make_response (jsonify (Pet.serialize pet)) status.HTTP_200_OK.

Definition pets_response (pets : list PetT) : Response :=
  make_response (jsonify (JArr (Pet.serialize <$> pets))) status.HTTP_200_OK.

(** The spellings of a lower-case string: every letter [a]..[z] of it may
    also be written as a capital. *)
Definition is_small (l : ascii) : bool :=
  let n := Ascii.N_of_ascii l in ((97 <=? n) && (n <=? 122))%N.

Definition capital (l : ascii) : ascii :=
  Ascii.ascii_of_N (Ascii.N_of_ascii l - 32).

Fixpoint spellings (t : string) : list string :=
  match t with
  | EmptyString => [EmptyString]
  | String l t' =>
      (String l <$> spellings t') ++
      (if is_small l then String (capital l) <$> spellings t' else [])
  end.

(** Every string read as true, spelled out: the tokens in any mix of
    capitals and small letters. *)
Definition truthy_spellings : list string :=
  [ "yes"; "yeS"; "yEs"; "yES"; "Yes"; "YeS"; "YEs"; "YES";
    "y"; "Y";
    "true"; "truE"; "trUe"; "trUE"; "tRue"; "tRuE"; "tRUe"; "tRUE";
    "True"; "TruE"; "TrUe"; "TrUE"; "TRue"; "TRuE"; "TRUe"; "TRUE";
    "t"; "T";
    "1" ].

(** The filters of the list endpoint, and the call each one is. *)
Inductive Filter : Type :=
  | by_category (c : string)
  | by_name (n : string)
  | by_availability (a : bool)
  | by_gender (g : string)
  | everything.

Definition apply_filter (f : Filter) : Flask (list PetT) :=
  match f with
  | by_category c => Pet.find_by_category c
  | by_name n => Pet.find_by_name n
  | by_availability a => Pet.find_by_availability a
  | by_gender g => Pet.find_by_gender g
  | everything => Pet.all
  end.

(** The filters a query string carries, in the order category, name,
    available, gender.  [given] says when a parameter counts: the identity
    for a parameter that is present, whatever its value, [Py.truthy] for a
    parameter that is present with a value that is not empty. *)
Definition filters_in_order (given : option string → option string)
    (q : list (string * string)) : list Filter :=
  omap Datatypes.id
    [ by_category <$> given (Py.get "category" q);
      by_name <$> given (Py.get "name" q);
      (λ v, by_availability (parse_available v)) <$>
        given (Py.get "available" q);
      by_gender <$> given (Py.get "gender" q) ].

(** A parameter given with a value that is not the empty string, in the
    words of the properties: what counts as given for the list endpoint. *)
Definition nonempty (x : option string) : option string :=
  match x with
  | Some s => if decide (s = "") then None else Some s
  | None => None
  end.

(** The first of them, or [everything] when there is none. *)
Definition first_filter (given : option string → option string)
    (q : list (string * string)) : Filter :=
  from_option Datatypes.id everything (head (filters_in_order given q)).

(** The answer of the list endpoint when filter [f] is the one applied. *)
Definition listing (f : Filter) : Flask Response :=
  pets ← apply_filter f; mret (pets_response pets).

(** The request without the query parameter [key]. *)
Definition without_arg (key : string) (req : Request) : Request :=
  {| args := Py.without key (args req);
     content_type := content_type req;
     form := form req;
     json_body := json_body req;
     url_root := url_root req |}.

(** ** A small store and a few requests, for the examples *)

Definition fido : Fields :=
  {| name := "fido"; category := "dog"; available := true; gender := MALE |}.

Definition kitty : Fields :=
  {| name := "kitty"; category := "cat"; available := false;
     gender := FEMALE |}.

(** Two records: fido under id 1, kitty under id 2. *)
Definition shop : World :=
  {| docs := <["1" := fido]> (<["2" := kitty]> ∅); calls := [] |}.

(** A JSON body for rex, carrying an id of its own. *)
Definition rex : Fields :=
  {| name := "rex"; category := "dog"; available := true; gender := MALE |}.

Definition rex_json : json :=
  JObj (<["id" := JStr "999"]>
       (<["name" := JStr "rex"]>
       (<["category" := JStr "dog"]>
       (<["available" := JBool true]>
       (<["gender" := JStr "MALE"]> ∅))))).

(** A request with the given query string, and nothing else. *)
Definition query (q : list (string * string)) : Request :=
  {| args := q; content_type := None; form := []; json_body := None;
     url_root := "http://localhost" |}.

(** A request with the given Content-Type header and JSON body. *)
Definition post (ct : option string) (j : option json) : Request :=
  {| args := []; content_type := ct; form := []; json_body := j;
     url_root := "http://localhost" |}.

(** A form post with the given Content-Type header. *)
Definition post_form (ct : option string) (f : list (string * string))
  : Request :=
  {| args := []; content_type := ct; form := f; json_body := None;
     url_root := "http://localhost" |}.

(** ** Vocabulary of the properties of the routes taken together *)

(** The statuses a route answers with. *)
Definition route_statuses (r : Route) : list Z :=
  match r with
  | GET_pets => [200]
  | GET_pet _ => [200; 404]
  | POST_pets => [201; 400]
  | PUT_pet _ => [200; 400; 404; 415]
  | DELETE_pet _ => [204]
  | PUT_purchase _ => [200; 404; 409]
  end.

(** The id in the path of a route. *)
Definition path_id (r : Route) : option string :=
  match r with
  | GET_pets | POST_pets => None
  | GET_pet pet_id | PUT_pet pet_id | DELETE_pet pet_id
  | PUT_purchase pet_id => Some pet_id
  end.

(** A store with one record. *)
Definition only (pet_id : string) (f : Fields) : World :=
  {| docs := {[pet_id := f]}; calls := [] |}.

(** The fields of rex as a form post, and as a JSON body without id. *)
Definition rex_form : list (string * string) :=
  [("name", "rex"); ("category", "dog"); ("available", "TRUE");
   ("gender", "MALE")].

(* ===================================================================== *)
(** * Properties                                                          *)
(* ===================================================================== *)

(** ** Running the monad *)

Lemma run_bind {A B} (m : Flask A) (k : A → Flask B) (w : World) :
  (m ≫= k) w =
  match m w with
  | (Done a, w') => k a w'
  | (Aborted code message, w') => (Aborted code message, w')
  end.
Proof. reflexivity. Qed.

Lemma run_find (pet_id : string) (w : World) :
  Pet.find pet_id w =
  (Done (mkPet (Some pet_id) <$> docs w !! pet_id),
   {| docs := docs w; calls := calls w ++ [call_find pet_id] |}).
Proof. reflexivity. Qed.

Lemma run_update (pet : PetT) (k : string) (w : World) :
  id pet = Some k →
  Pet.update pet w =
  (Done tt, {| docs := <[k := fields pet]> (docs w);
               calls := calls w ++ [call_update pet] |}).
Proof.
  intros Hid. unfold Pet.update. rewrite !run_bind. cbn. by rewrite Hid.
Qed.

Lemma run_create (pet : PetT) (w : World) :
  Pet.create pet w =
  (Done (set_id (Some (fresh (dom (docs w)))) pet),
   {| docs := <[fresh (dom (docs w)) := fields pet]> (docs w);
      calls := calls w ++ [call_create pet] |}).
Proof. reflexivity. Qed.

Lemma run_delete (pet : PetT) (k : string) (w : World) :
  id pet = Some k →
  Pet.delete pet w =
  (Done tt, {| docs := delete k (docs w);
               calls := calls w ++ [call_delete pet] |}).
Proof.
  intros Hid. unfold Pet.delete. rewrite !run_bind. cbn. by rewrite Hid.
Qed.

(** ** The truthy tokens *)

Lemma lower_ascii_idempotent (c : ascii) :
  Py.lower_ascii (Py.lower_ascii c) = Py.lower_ascii c.
Proof. by destruct c as [[] [] [] [] [] [] [] []]. Qed.

Lemma lower_ascii_inv (c : ascii) :
  c = Py.lower_ascii c ∨
  (is_small (Py.lower_ascii c) = true ∧ c = capital (Py.lower_ascii c)).
Proof.
  destruct c as [[] [] [] [] [] [] [] []];
    first [by left | by right].
Qed.

Lemma lower_ascii_capital (l : ascii) :
  is_small l = true → Py.lower_ascii (capital l) = l.
Proof. by destruct l as [[] [] [] [] [] [] [] []]. Qed.

Lemma lower_idempotent (s : string) : Py.lower (Py.lower s) = Py.lower s.
Proof.
  induction s as [|c s IH]; [reflexivity|].
  cbn [Py.lower]. by rewrite IH, lower_ascii_idempotent.
Qed.

Lemma lower_spellings (s : string) : s ∈ spellings (Py.lower s).
Proof.
  induction s as [|c s IH]; cbn [Py.lower spellings].
  - apply list_elem_of_singleton. reflexivity.
  - apply elem_of_app.
    destruct (lower_ascii_inv c) as [Hc|[Hsmall Hc]].
    + left. rewrite Hc at 1. by apply list_elem_of_fmap_2.
    + right. rewrite Hsmall. rewrite Hc at 1. by apply list_elem_of_fmap_2.
Qed.

Lemma spellings_lower (t : string) (s : string) :
  Py.lower t = t → s ∈ spellings t → Py.lower s = t.
Proof.
  revert s. induction t as [|l t IH]; intros s Ht Hs; cbn [spellings] in Hs.
  - apply list_elem_of_singleton in Hs. by subst.
  - cbn [Py.lower] in Ht. injection Ht as Hl Ht.
    apply elem_of_app in Hs as [Hs|Hs].
    + apply list_elem_of_fmap in Hs as (s' & -> & Hs').
      cbn [Py.lower]. by rewrite Hl, (IH s' Ht Hs').
    + destruct (is_small l) eqn:Hsmall; [|by apply elem_of_nil in Hs].
      apply list_elem_of_fmap in Hs as (s' & -> & Hs').
      cbn [Py.lower]. by rewrite (lower_ascii_capital l Hsmall), (IH s' Ht Hs').
Qed.

Lemma parse_available_spec (s : string) :
  parse_available s = true ↔ Py.lower s ∈ truthy_tokens.
Proof. unfold parse_available. apply bool_decide_eq_true. Qed.

Lemma parse_available_lower (s : string) :
  parse_available (Py.lower s) = parse_available s.
Proof. unfold parse_available. by rewrite lower_idempotent. Qed.

Lemma parse_available_spellings (s : string) :
  parse_available s = true ↔ s ∈ truthy_spellings.
Proof.
  rewrite parse_available_spec.
  assert (Hall : truthy_spellings = truthy_tokens ≫= spellings)
    by (vm_compute; reflexivity).
  rewrite Hall, list_elem_of_bind. split.
  - intros Hin. exists (Py.lower s). split; [apply lower_spellings | done].
  - intros (t & Hs & Ht). assert (Hfix : Py.lower t = t).
    { unfold truthy_tokens in Ht.
      repeat (apply elem_of_cons in Ht as [->|Ht]); try reflexivity.
      by apply elem_of_nil in Ht. }
    by rewrite (spellings_lower t s Hfix Hs).
Qed.

(** ** The call history *)

Lemma new_calls_app (w : World) (d : gmap string Fields) (l : list Call) :
  new_calls w {| docs := d; calls := calls w ++ l |} = l.
Proof. unfold new_calls. cbn. by rewrite drop_app_length. Qed.

Lemma new_calls_same (w : World) : new_calls w w = [].
Proof. unfold new_calls. by rewrite drop_all. Qed.

(** ** Purchase *)

Lemma purchase_pets_run (pet_id : string) (w : World) :
  purchase_pets pet_id w =
  match docs w !! pet_id with
  | None =>
      (Aborted 404 ("Pet with id '" +:+ pet_id +:+ "' was not found."),
       {| docs := docs w; calls := calls w ++ [call_find pet_id] |})
  | Some f =>
      if available f then
        let pet := set_available false (mkPet (Some pet_id) f) in
        (Done (pet_response pet),
         {| docs := <[pet_id := fields pet]> (docs w);
            calls := calls w ++ [call_find pet_id; call_update pet] |})
      else
        (Aborted 409 ("Pet with id '" +:+ pet_id +:+ "' is not available."),
         {| docs := docs w; calls := calls w ++ [call_find pet_id] |})
  end.
Proof.
  unfold purchase_pets. rewrite run_bind, run_find. cbn.
  destruct (docs w !! pet_id) as [f|]; cbn; [|reflexivity].
  destruct (available f); cbn; [|reflexivity].
  rewrite run_bind. erewrite run_update by reflexivity. cbn.
  by rewrite <- app_assoc.
Qed.

(** C1. Purchasing an existing Pet that is available answers HTTP 200 with
    the serialized Pet, now with [available] false, after one call of
    [update] that stores the Pet with [available] false under its id; and no
    purchase, whatever its target, leaves a record with [available] true
    that was not so before, nor calls [update] with [available] true. *)
Theorem purchase_available_pet :
  (∀ (pet_id : string) (w : World) (f : Fields),
     docs w !! pet_id = Some f →
     available f = true →
     let pet := {| id := Some pet_id;
                   fields := {| name := name f; category := category f;
                                available := false; gender := gender f |} |} in
     purchase_pets pet_id w =
       (Done {| status_code := 200; body := jsonify (Pet.serialize pet);
                headers := [] |},
        {| docs := <[pet_id := fields pet]> (docs w);
           calls := calls w ++ [call_find pet_id; call_update pet] |}))
  ∧
  (∀ (pet_id : string) (w : World),
     let w' := (purchase_pets pet_id w).2 in
     (∀ k f', docs w' !! k = Some f' → available f' = true →
              docs w !! k = Some f') ∧
     (∀ pet, call_update pet ∈ new_calls w w' →
             available (fields pet) = false)).
Proof.
  split.
  - intros pet_id w f Hf Ha pet. rewrite purchase_pets_run, Hf, Ha. reflexivity.
  - intros pet_id w w'. subst w'. rewrite purchase_pets_run.
    destruct (docs w !! pet_id) as [f|] eqn:Hf; [destruct (available f)|];
      cbn [snd docs]; rewrite new_calls_app.
    + split.
      * intros k f' Hk Ha. destruct (decide (pet_id = k)) as [->|Hne].
        -- rewrite lookup_insert_eq in Hk. injection Hk as <-. discriminate Ha.
        -- by rewrite lookup_insert_ne in Hk.
      * intros pet Hin.
        apply elem_of_cons in Hin as [Hin|Hin]; [discriminate Hin|].
        apply list_elem_of_singleton in Hin. by injection Hin as ->.
    + split; [done|]. intros pet Hin.
      apply list_elem_of_singleton in Hin. discriminate Hin.
    + split; [done|]. intros pet Hin.
      apply list_elem_of_singleton in Hin. discriminate Hin.
Qed.

Lemma purchase_available_pet_witness :
  docs shop !! "1" = Some fido ∧ available fido = true ∧
  status_of (purchase_pets "1" shop).1 = 200 ∧
  docs (purchase_pets "1" shop).2 !! "1" =
    Some {| name := "fido"; category := "dog"; available := false;
            gender := MALE |}.
Proof.
  assert (H1 : docs shop !! "1" = Some fido) by (vm_compute; reflexivity).
  assert (H2 : available fido = true) by reflexivity.
  split; [exact H1|]. split; [exact H2|].
  rewrite (proj1 purchase_available_pet "1" shop fido H1 H2).
  split; [reflexivity|]. vm_compute. reflexivity.
Defined.

Lemma append_assoc (a b c : string) : (a +:+ b) +:+ c = a +:+ b +:+ c.
Proof.
  induction a as [|x a IH]; [reflexivity|].
  change (String x ((a +:+ b) +:+ c) = String x (a +:+ b +:+ c)).
  by rewrite IH.
Qed.

Lemma not_available_message (pet_id : string) :
  contains ("Pet with id '" +:+ pet_id +:+ "' is not available.")
           "is not available".
Proof.
  exists ("Pet with id '" +:+ pet_id +:+ "' "), ".".
  by rewrite !append_assoc.
Qed.

(** C2. A purchase whose target id names no Pet fails with HTTP 404; a
    purchase whose target exists with [available] false fails with HTTP 409
    and the message [Pet with id '<id>' is not available.], which contains
    [is not available]. *)
Theorem purchase_missing_or_unavailable (pet_id : string) (w : World) :
  (docs w !! pet_id = None →
   ∃ message w',
     purchase_pets pet_id w = (Aborted 404 message, w')) ∧
  (∀ f : Fields,
     docs w !! pet_id = Some f → available f = false →
     ∃ message w',
       purchase_pets pet_id w = (Aborted 409 message, w') ∧
       message = "Pet with id '" +:+ pet_id +:+ "' is not available." ∧
       contains message "is not available").
Proof.
  split.
  - intros Hnone. rewrite purchase_pets_run, Hnone. eauto.
  - intros f Hf Ha. rewrite purchase_pets_run, Hf, Ha.
    eexists _, _. split; [reflexivity|]. split; [reflexivity|].
    apply not_available_message.
Qed.

Lemma purchase_missing_or_unavailable_witness :
  (docs shop !! "3" = None ∧ status_of (purchase_pets "3" shop).1 = 404) ∧
  (docs shop !! "2" = Some kitty ∧ available kitty = false ∧
   status_of (purchase_pets "2" shop).1 = 409).
Proof.
  assert (H3 : docs shop !! "3" = None) by (vm_compute; reflexivity).
  assert (H2 : docs shop !! "2" = Some kitty) by (vm_compute; reflexivity).
  assert (Ha : available kitty = false) by reflexivity.
  split.
  - split; [exact H3|].
    destruct (proj1 (purchase_missing_or_unavailable "3" shop) H3)
      as (message & w' & ->).
    reflexivity.
  - split; [exact H2|]. split; [exact Ha|].
    destruct (proj2 (purchase_missing_or_unavailable "2" shop) kitty H2 Ha)
      as (message & w' & -> & _).
    reflexivity.
Defined.

(** ** Delete *)

Lemma delete_pets_run (pet_id : string) (w : World) :
  delete_pets pet_id w =
    (Done {| status_code := 204; body := text ""; headers := [] |},
     match docs w !! pet_id with
     | Some f =>
         {| docs := delete pet_id (docs w);
            calls := calls w ++ [call_find pet_id;
                                 call_delete (mkPet (Some pet_id) f)] |}
     | None =>
         {| docs := docs w; calls := calls w ++ [call_find pet_id] |}
     end).
Proof.
  unfold delete_pets. rewrite run_bind, run_find. cbn.
  destruct (docs w !! pet_id) as [f|]; cbn; [|reflexivity].
  rewrite run_bind. erewrite run_delete by reflexivity. cbn.
  by rewrite <- app_assoc.
Qed.

(** C3. Every delete request is answered HTTP 204 with an empty body,
    whether or not a Pet of that id exists; [delete] is called, and the
    record removed, exactly when the record exists; the answer is never an
    HTTP 404. *)
Theorem delete_always_204 (pet_id : string) (w : World) :
  delete_pets pet_id w =
    (Done {| status_code := 204; body := text ""; headers := [] |},
     match docs w !! pet_id with
     | Some f =>
         {| docs := delete pet_id (docs w);
            calls := calls w ++ [call_find pet_id;
                                 call_delete (mkPet (Some pet_id) f)] |}
     | None =>
         {| docs := docs w; calls := calls w ++ [call_find pet_id] |}
     end)
  ∧ status_of (delete_pets pet_id w).1 ≠ 404
  ∧ ((∃ pet, call_delete pet ∈ new_calls w (delete_pets pet_id w).2)
     ↔ is_Some (docs w !! pet_id))
  ∧ (docs w !! pet_id = None → docs (delete_pets pet_id w).2 = docs w)
  ∧ docs (delete_pets pet_id w).2 !! pet_id = None.
Proof.
  pose proof (delete_pets_run pet_id w) as Hrun.
  rewrite Hrun. split; [reflexivity|]. split; [discriminate|].
  destruct (docs w !! pet_id) as [f|] eqn:Hf; cbn [snd docs];
    rewrite new_calls_app.
  - split; [|split; [discriminate | apply lookup_delete_eq]].
    split; [eauto|]. intros _. eexists. apply elem_of_cons. right.
    apply list_elem_of_singleton. reflexivity.
  - split; [|split; [reflexivity | exact Hf]].
    split; [|by intros [? ?]]. intros [pet Hin].
    apply list_elem_of_singleton in Hin. discriminate Hin.
Qed.

Lemma delete_always_204_witness :
  docs shop !! "3" = None ∧ docs (delete_pets "3" shop).2 = docs shop ∧
  status_of (delete_pets "3" shop).1 = 204.
Proof.
  assert (H3 : docs shop !! "3" = None) by (vm_compute; reflexivity).
  destruct (delete_always_204 "3" shop) as (Hrun & _ & _ & Hsame & _).
  split; [exact H3|]. split; [exact (Hsame H3)|].
  rewrite Hrun. reflexivity.
Defined.

(** ** List *)

Lemma list_pets_run (req : Request) (w : World) :
  list_pets req w = listing (first_filter Py.truthy (args req)) w.
Proof.
  unfold list_pets, select_pets, listing, first_filter, filters_in_order.
  destruct (Py.truthy (Py.get "category" (args req))); [reflexivity|].
  destruct (Py.truthy (Py.get "name" (args req))); [reflexivity|].
  destruct (Py.truthy (Py.get "available" (args req))); [reflexivity|].
  destruct (Py.truthy (Py.get "gender" (args req))); reflexivity.
Qed.

Lemma truthy_Some (x : option string) (s : string) :
  Py.truthy x = Some s ↔ x = Some s ∧ s ≠ "".
Proof.
  destruct x as [[|c x]|]; cbn; split; try by intros [? ?].
  - discriminate.
  - intros [[= <-] Hne]. by destruct Hne.
  - intros [= <-]. done.
  - discriminate.
Qed.

Lemma truthy_None (x : option string) :
  Py.truthy x = None ↔ x = None ∨ x = Some "".
Proof.
  destruct x as [[|c x]|]; cbn; split; auto; try discriminate.
  intros [?|?]; discriminate.
Qed.

Lemma truthy_nonempty (x : option string) : Py.truthy x = nonempty x.
Proof. by destruct x as [[|c x]|]. Qed.

Lemma get_without (k key : string) (q : list (string * string)) :
  Py.get k (Py.without key q) =
  if decide (k = key) then None else Py.get k q.
Proof.
  unfold Py.without. induction q as [|[k' v] q IH].
  - by destruct (decide (k = key)).
  - rewrite filter_cons. cbn [fst Py.get].
    destruct (decide (k' ≠ key)) as [Hne|Heq]; cbn [Py.get].
    + destruct (decide (k' = k)) as [->|Hk]; [by rewrite decide_False|exact IH].
    + apply dec_stable in Heq. subst k'. rewrite IH.
      destruct (decide (key = k)) as [->|Hk]; [|done].
      by destruct (decide (k = k)).
Qed.

Lemma truthy_get_without (key k : string) (q : list (string * string)) :
  Py.get key q = Some "" →
  Py.truthy (Py.get k (Py.without key q)) = Py.truthy (Py.get k q).
Proof.
  intros Hempty. rewrite get_without.
  destruct (decide (k = key)) as [->|Hne]; [|reflexivity].
  by rewrite Hempty.
Qed.

Lemma listing_run (f : Filter) (w : World) :
  listing f w =
  (Done (pets_response
           (match f with
            | by_category c =>
                filter (λ pet, category (fields pet) = c) (Pet.all_of (docs w))
            | by_name n =>
                filter (λ pet, name (fields pet) = n) (Pet.all_of (docs w))
            | by_availability a =>
                filter (λ pet, available (fields pet) = a)
                       (Pet.all_of (docs w))
            | by_gender g =>
                filter (λ pet, Gender_name (gender (fields pet)) = g)
                       (Pet.all_of (docs w))
            | everything => Pet.all_of (docs w)
            end)),
   {| docs := docs w;
      calls := calls w ++
        [match f with
         | by_category c => call_find_by_category c
         | by_name n => call_find_by_name n
         | by_availability a => call_find_by_availability a
         | by_gender g => call_find_by_gender g
         | everything => call_all
         end] |}).
Proof. destruct f; reflexivity. Qed.

(** C4, as amended. The list endpoint applies one filter: the first, in the
    order category, name, available, gender, of the parameters given with a
    value that is not empty.  A request whose [category] is not empty is
    answered by the category filter alone, whatever else it carries, and a
    request with none of the four parameters is answered with all records. *)
Theorem list_applies_first_nonempty_filter (req : Request) (w : World) :
  list_pets req w = listing (first_filter Py.truthy (args req)) w
  ∧ (∀ c : string,
       Py.get "category" (args req) = Some c → c ≠ "" →
       list_pets req w =
         (Done (pets_response
                  (filter (λ pet, category (fields pet) = c)
                          (Pet.all_of (docs w)))),
          {| docs := docs w;
             calls := calls w ++ [call_find_by_category c] |}))
  ∧ (Py.get "category" (args req) = None →
     Py.get "name" (args req) = None →
     Py.get "available" (args req) = None →
     Py.get "gender" (args req) = None →
     list_pets req w =
       (Done (pets_response (Pet.all_of (docs w))),
        {| docs := docs w; calls := calls w ++ [call_all] |})).
Proof.
  split; [apply list_pets_run|]. split.
  - intros c Hc Hne. rewrite list_pets_run.
    unfold first_filter, filters_in_order.
    rewrite (proj2 (truthy_Some _ c) (conj Hc Hne)). reflexivity.
  - intros Hc Hn Ha Hg. rewrite list_pets_run.
    unfold first_filter, filters_in_order. rewrite Hc, Hn, Ha, Hg. reflexivity.
Qed.

Lemma list_applies_first_nonempty_filter_witness :
  (Py.get "category" [("name", "kitty"); ("category", "dog")] = Some "dog" ∧
   "dog" ≠ "" ∧
   new_calls shop
     (list_pets (query [("name", "kitty"); ("category", "dog")]) shop).2 =
     [call_find_by_category "dog"]) ∧
  new_calls shop (list_pets (query []) shop).2 = [call_all].
Proof.
  assert (Hc : Py.get "category" [("name", "kitty"); ("category", "dog")]
               = Some "dog") by reflexivity.
  assert (Hne : "dog" ≠ "") by discriminate.
  split; [split; [exact Hc|split; [exact Hne|]]|].
  - rewrite (proj1 (proj2 (list_applies_first_nonempty_filter
               (query [("name", "kitty"); ("category", "dog")]) shop))
               "dog" Hc Hne).
    apply new_calls_app.
  - rewrite (proj2 (proj2 (list_applies_first_nonempty_filter
               (query []) shop)) eq_refl eq_refl eq_refl eq_refl).
    apply new_calls_app.
Defined.

(** C4 as worded fails: with [category] present but empty and [name] set,
    the first present filter is [category], yet the handler filters by
    name. *)
Lemma list_first_present_filter_not_applied :
  first_filter Datatypes.id (args (query [("category", ""); ("name", "kitty")]))
    = by_category "" ∧
  new_calls shop
    (list_pets (query [("category", ""); ("name", "kitty")]) shop).2
    = [call_find_by_name "kitty"] ∧
  list_pets (query [("category", ""); ("name", "kitty")]) shop ≠
  listing (first_filter Datatypes.id
             (args (query [("category", ""); ("name", "kitty")]))) shop.
Proof.
  split; [reflexivity|]. split; [reflexivity|].
  intros Heq. apply (f_equal (λ x, new_calls shop x.2)) in Heq.
  discriminate Heq.
Qed.

(** C9. A query parameter given with the empty string as its value is
    treated as absent.  The handler applies the filter that comes first, in
    the order category, name, available, gender, among the parameters of
    the query string without that parameter: so it falls through to the
    next parameter given with a value, and returns all records when there
    is none.  Its answer is that of the request without the parameter, and
    [GET /pets?category=] returns all Pets. *)
Theorem empty_filter_value_is_absent
    (key : string) (req : Request) (w : World) :
  Py.get key (args req) = Some "" →
  list_pets req w =
    listing (first_filter Py.truthy (Py.without key (args req))) w
  ∧ list_pets req w =
      listing (first_filter nonempty (Py.without key (args req))) w
  ∧ (∀ v : string,
       by_category v ∈ filters_in_order Py.truthy (args req) →
       key ≠ "category")
  ∧ (∀ v : string,
       by_name v ∈ filters_in_order Py.truthy (args req) → key ≠ "name")
  ∧ (∀ v : string,
       by_gender v ∈ filters_in_order Py.truthy (args req) →
       key ≠ "gender")
  ∧ (key = "available" →
     ∀ a : bool,
       by_availability a ∉ filters_in_order Py.truthy (args req))
  ∧ list_pets req w = list_pets (without_arg key req) w
  ∧ first_filter Py.truthy (args req) =
    first_filter Py.truthy (Py.without key (args req))
  ∧ list_pets (query [("category", "")]) w =
      (Done (pets_response (Pet.all_of (docs w))),
       {| docs := docs w; calls := calls w ++ [call_all] |}).
Proof.
  intros Hempty.
  assert (Hsame : first_filter Py.truthy (args req) =
                  first_filter Py.truthy (Py.without key (args req))).
  { unfold first_filter, filters_in_order.
    by rewrite !(truthy_get_without key _ _ Hempty). }
  assert (Hskip : ∀ f : Filter,
            f ∈ filters_in_order Py.truthy (args req) →
            match f with
            | by_category _ => key ≠ "category"
            | by_name _ => key ≠ "name"
            | by_availability _ => key ≠ "available"
            | by_gender _ => key ≠ "gender"
            | everything => False
            end).
  { intros f Hin. unfold filters_in_order in Hin.
    apply list_elem_of_omap in Hin as (o & Ho & Hf).
    unfold Datatypes.id in Hf. subst o.
    repeat (apply elem_of_cons in Ho as [Ho|Ho]);
      try (by apply elem_of_nil in Ho);
      symmetry in Ho; apply fmap_Some in Ho as (v & Hv & ->);
      intros ->; rewrite Hempty in Hv; discriminate Hv. }
  split; [by rewrite list_pets_run, Hsame|].
  split.
  { rewrite list_pets_run, Hsame. unfold first_filter, filters_in_order.
    by rewrite !truthy_nonempty. }
  split; [intros v Hin; exact (Hskip _ Hin)|].
  split; [intros v Hin; exact (Hskip _ Hin)|].
  split; [intros v Hin; exact (Hskip _ Hin)|].
  split; [intros -> a Hin; by apply (Hskip _ Hin)|].
  split; [|split; [exact Hsame | reflexivity]].
  rewrite !list_pets_run. cbn [without_arg args]. by rewrite Hsame.
Qed.

Lemma empty_filter_value_is_absent_witness :
  Py.get "category" (args (query [("category", ""); ("name", "kitty")]))
    = Some "" ∧
  first_filter Py.truthy
    (Py.without "category" [("category", ""); ("name", "kitty")])
    = by_name "kitty" ∧
  list_pets (query [("category", ""); ("name", "kitty")]) shop =
    listing (by_name "kitty") shop ∧
  new_calls shop
    (list_pets (query [("category", ""); ("name", "kitty")]) shop).2
    = [call_find_by_name "kitty"] ∧
  list_pets (query [("category", ""); ("name", "kitty")]) shop =
  list_pets (query [("name", "kitty")]) shop.
Proof.
  destruct (empty_filter_value_is_absent "category"
              (query [("category", ""); ("name", "kitty")]) shop eq_refl)
    as (Hnext & _ & _ & _ & _ & _ & Hwithout & _).
  split; [reflexivity|]. split; [reflexivity|].
  split; [exact Hnext|]. split; [|exact Hwithout].
  rewrite Hnext. reflexivity.
Defined.

(** ** Create *)

Lemma create_data_form_run (req : Request) (w : World) :
  create_data req "application/x-www-form-urlencoded" w =
  match Py.get "name" (form req), Py.get "category" (form req),
        Py.get "available" (form req), Py.get "gender" (form req) with
  | Some n, Some c, Some a, Some g =>
      (Done (JObj (<["name" := JStr n]>
                  (<["category" := JStr c]>
                  (<["available" := JBool (parse_available a)]>
                  (<["gender" := JStr g]> ∅))))), w)
  | _, _, _, _ => (Aborted 400 "Bad Request", w)
  end.
Proof.
  unfold create_data. rewrite decide_True by reflexivity.
  unfold form_item. rewrite run_bind.
  destruct (Py.get "name" (form req)); [|reflexivity]. cbn. rewrite run_bind.
  destruct (Py.get "category" (form req)); [|reflexivity]. cbn.
  rewrite run_bind.
  destruct (Py.get "available" (form req)); [|reflexivity]. cbn.
  rewrite run_bind.
  destruct (Py.get "gender" (form req)); reflexivity.
Qed.

(** C5. The boolean read from a string [s] for [available] is true exactly
    when [s.lower()] is one of yes, y, true, t, 1, and false for every
    other string; this is the value the list endpoint filters by when the
    available filter applies, and the value a form post gives the field. *)
Theorem available_parsed_by_truthy_tokens (s : string) :
  (parse_available s = true ↔ Py.lower s ∈ ["yes"; "y"; "true"; "t"; "1"])
  ∧ (parse_available s = false ↔ Py.lower s ∉ ["yes"; "y"; "true"; "t"; "1"])
  ∧ (∀ (req : Request) (w : World),
       Py.truthy (Py.get "category" (args req)) = None →
       Py.truthy (Py.get "name" (args req)) = None →
       Py.get "available" (args req) = Some s → s ≠ "" →
       list_pets req w =
         (Done (pets_response
                  (filter (λ pet, available (fields pet) = parse_available s)
                          (Pet.all_of (docs w)))),
          {| docs := docs w;
             calls := calls w ++
                      [call_find_by_availability (parse_available s)] |}))
  ∧ (∀ (req : Request) (w : World) (n c g : string),
       Py.get "name" (form req) = Some n →
       Py.get "category" (form req) = Some c →
       Py.get "available" (form req) = Some s →
       Py.get "gender" (form req) = Some g →
       create_data req "application/x-www-form-urlencoded" w =
         (Done (JObj (<["name" := JStr n]>
                     (<["category" := JStr c]>
                     (<["available" := JBool (parse_available s)]>
                     (<["gender" := JStr g]> ∅))))), w)).
Proof.
  split; [apply parse_available_spec|]. split; [|split].
  - rewrite <- parse_available_spec. by destruct (parse_available s).
  - intros req w Hc Hn Ha Hne. rewrite list_pets_run.
    unfold first_filter, filters_in_order.
    rewrite Hc, Hn, (proj2 (truthy_Some _ s) (conj Ha Hne)). reflexivity.
  - intros req w n c g Hn Hc Ha Hg.
    by rewrite create_data_form_run, Hn, Hc, Ha, Hg.
Qed.

Lemma available_parsed_by_truthy_tokens_witness :
  (Py.lower "Yes" ∈ ["yes"; "y"; "true"; "t"; "1"]) ∧
  (Py.lower "no" ∉ ["yes"; "y"; "true"; "t"; "1"]) ∧
  new_calls shop (list_pets (query [("available", "Yes")]) shop).2 =
    [call_find_by_availability true].
Proof.
  split; [|split].
  - exact (proj1 (proj1 (available_parsed_by_truthy_tokens "Yes")) eq_refl).
  - exact (proj1 (proj1 (proj2 (available_parsed_by_truthy_tokens "no")))
             eq_refl).
  - rewrite (proj1 (proj2 (proj2 (available_parsed_by_truthy_tokens "Yes")))
               (query [("available", "Yes")]) shop eq_refl eq_refl eq_refl);
      [|discriminate].
    cbn [snd]. rewrite new_calls_app. reflexivity.
Defined.

Lemma create_data_state (req : Request) (ct : string) (w : World) :
  (create_data req ct w).2 = w.
Proof.
  destruct (decide (ct = "application/x-www-form-urlencoded")) as [->|Hform].
  - rewrite create_data_form_run.
    destruct (Py.get "name" (form req)), (Py.get "category" (form req)),
      (Py.get "available" (form req)), (Py.get "gender" (form req));
      reflexivity.
  - unfold create_data. rewrite (decide_False (P := ct = _)) by exact Hform.
    destruct (decide (ct = "application/json")); [|reflexivity].
    unfold get_json. destruct (json_body req); reflexivity.
Qed.

Lemma create_data_unsupported (req : Request) (ct : string) (w : World) :
  ct ≠ "application/x-www-form-urlencoded" → ct ≠ "application/json" →
  create_data req ct w =
    (Aborted 400 ("Unsupported Content-Type: " +:+ ct), w).
Proof.
  intros Hform Hjson. unfold create_data.
  rewrite (decide_False (P := ct = _)) by exact Hform.
  rewrite (decide_False (P := ct = _)) by exact Hjson. reflexivity.
Qed.

Lemma create_data_json (req : Request) (w : World) :
  create_data req "application/json" w =
  match json_body req with
  | Some j => (Done j, w)
  | None => (Aborted 400 "Bad Request", w)
  end.
Proof.
  unfold create_data.
  rewrite (decide_False (P := _ = "application/x-www-form-urlencoded"))
    by discriminate.
  rewrite decide_True by reflexivity.
  unfold get_json. destruct (json_body req); reflexivity.
Qed.

Lemma create_pets_run (req : Request) (w : World) :
  create_pets req w =
  match Py.truthy (content_type req) with
  | None => (Aborted 400 "No Content-Type set", w)
  | Some ct =>
      match (create_data req ct w).1 with
      | Aborted code message => (Aborted code message, w)
      | Done data =>
          match Pet.fields_of data with
          | None =>
              (Aborted 400 "Invalid pet: bad or missing data",
               {| docs := docs w;
                  calls := calls w ++ [call_deserialize Pet.new data] |})
          | Some f =>
              let k := fresh (dom (docs w)) in
              (Done {| status_code := 201;
                       body := jsonify (Pet.serialize (mkPet (Some k) f));
                       headers := [("Location",
                                    url_root req +:+ "/pets/" +:+ k)] |},
               {| docs := <[k := f]> (docs w);
                  calls := calls w ++
                    [call_deserialize Pet.new data;
                     call_create (mkPet (Pet.id_of None data) f)] |})
          end
      end
  end.
Proof.
  unfold create_pets. destruct (Py.truthy (content_type req)) as [ct|];
    [|reflexivity].
  rewrite run_bind. pose proof (create_data_state req ct w) as Hstate.
  destruct (create_data req ct w) as [[data|code message] w1];
    cbn [fst snd] in *; subst w1; [|reflexivity].
  rewrite run_bind. unfold Pet.deserialize at 1. rewrite run_bind. cbn.
  destruct (Pet.fields_of data) as [f|]; [|reflexivity]. cbn.
  rewrite run_bind, run_create.
  cbn [set_id id fields docs calls url_for_get_pets].
  rewrite run_bind. cbn [mret Flask_ret]. by rewrite <- app_assoc.
Qed.

Lemma contains_empty (s : string) : contains s "".
Proof. by exists "", s. Qed.

Lemma append_empty_r (s : string) : s +:+ "" = s.
Proof.
  induction s as [|c s IH]; [reflexivity|].
  change (String c (s +:+ "") = String c s). by rewrite IH.
Qed.

Lemma contains_suffix (pre s : string) : contains (pre +:+ s) s.
Proof. exists pre, "". by rewrite append_empty_r. Qed.

(** C6. A create request without a Content-Type header fails with HTTP 400
    and the message [No Content-Type set]; with a Content-Type other than
    [application/x-www-form-urlencoded] and [application/json] it fails
    with HTTP 400 and a message that names the type (for a type that is not
    the empty string, [Unsupported Content-Type: <type>]); and
    [deserialize] is called only for these two types. *)
Theorem create_content_type (req : Request) (w : World) :
  (content_type req = None →
   create_pets req w = (Aborted 400 "No Content-Type set", w))
  ∧ (∀ ct : string,
       content_type req = Some ct →
       ct ≠ "application/x-www-form-urlencoded" →
       ct ≠ "application/json" →
       ∃ message : string,
         create_pets req w = (Aborted 400 message, w) ∧
         contains message ct ∧
         (ct ≠ "" → message = "Unsupported Content-Type: " +:+ ct))
  ∧ (∀ (pet : PetT) (data : json),
       call_deserialize pet data ∈ new_calls w (create_pets req w).2 →
       content_type req = Some "application/x-www-form-urlencoded" ∨
       content_type req = Some "application/json").
Proof.
  assert (Hother : ∀ ct : string,
       content_type req = Some ct →
       ct ≠ "application/x-www-form-urlencoded" →
       ct ≠ "application/json" →
       ∃ message : string,
         create_pets req w = (Aborted 400 message, w) ∧
         contains message ct ∧
         (ct ≠ "" → message = "Unsupported Content-Type: " +:+ ct)).
  { intros ct Hct Hform Hjson. rewrite create_pets_run, Hct.
    destruct ct as [|c ct]; cbn [Py.truthy].
    - exists "No Content-Type set". split; [reflexivity|].
      split; [apply contains_empty | by intros []].
    - rewrite create_data_unsupported by assumption. cbn [fst].
      eexists. split; [reflexivity|]. split; [apply contains_suffix|done]. }
  split; [|split; [exact Hother|]].
  - intros Hnone. by rewrite create_pets_run, Hnone.
  - intros pet data Hin. destruct (content_type req) as [ct|] eqn:Hct.
    + destruct (decide (ct = "application/x-www-form-urlencoded")) as [->|Hf];
        [by left|].
      destruct (decide (ct = "application/json")) as [->|Hj]; [by right|].
      destruct (Hother ct eq_refl Hf Hj) as (message & Hrun & _).
      rewrite Hrun in Hin. cbn [snd] in Hin. rewrite new_calls_same in Hin.
      by apply elem_of_nil in Hin.
    + rewrite create_pets_run, Hct in Hin. cbn [Py.truthy snd] in Hin.
      rewrite new_calls_same in Hin. by apply elem_of_nil in Hin.
Qed.

Lemma create_content_type_witness :
  (content_type (post None (Some rex_json)) = None ∧
   create_pets (post None (Some rex_json)) shop =
     (Aborted 400 "No Content-Type set", shop)) ∧
  (content_type (post (Some "text/plain") (Some rex_json))
     = Some "text/plain" ∧
   "text/plain" ≠ "application/x-www-form-urlencoded" ∧
   "text/plain" ≠ "application/json" ∧
   ∃ message : string,
     create_pets (post (Some "text/plain") (Some rex_json)) shop =
       (Aborted 400 message, shop) ∧
     message = "Unsupported Content-Type: text/plain") ∧
  (call_deserialize Pet.new rex_json ∈
     new_calls shop
       (create_pets (post (Some "application/json") (Some rex_json)) shop).2 ∧
   (content_type (post (Some "application/json") (Some rex_json))
      = Some "application/x-www-form-urlencoded" ∨
    content_type (post (Some "application/json") (Some rex_json))
      = Some "application/json")).
Proof.
  split; [|split].
  - split; [reflexivity|].
    exact (proj1 (create_content_type (post None (Some rex_json)) shop)
             eq_refl).
  - assert (Hf : "text/plain" ≠ "application/x-www-form-urlencoded")
      by discriminate.
    assert (Hj : "text/plain" ≠ "application/json") by discriminate.
    split; [reflexivity|]. split; [exact Hf|]. split; [exact Hj|].
    destruct (proj1 (proj2 (create_content_type
                (post (Some "text/plain") (Some rex_json)) shop))
                "text/plain" eq_refl Hf Hj) as (message & Hrun & _ & Hmsg).
    exists message. split; [exact Hrun|]. apply Hmsg. discriminate.
  - assert (Hin : call_deserialize Pet.new rex_json ∈
       new_calls shop
         (create_pets (post (Some "application/json") (Some rex_json))
                      shop).2).
    { rewrite create_pets_run. cbn [post content_type Py.truthy].
      rewrite create_data_json. cbn [post json_body fst].
      assert (Hf : Pet.fields_of rex_json = Some rex)
        by (vm_compute; reflexivity).
      rewrite Hf. cbn [snd]. rewrite new_calls_app. apply list_elem_of_here. }
    split; [exact Hin|].
    exact (proj2 (proj2 (create_content_type
             (post (Some "application/json") (Some rex_json)) shop))
             Pet.new rex_json Hin).
Defined.

(** ** Update *)

Lemma check_content_type_run (req : Request) (media_type : string)
    (w : World) :
  check_content_type req media_type w =
  match Py.truthy (content_type req) with
  | None => (Aborted 400 "No Content-Type set", w)
  | Some ct =>
      if decide (ct = media_type) then (Done tt, w)
      else (Aborted 415 ("Content-Type must be " +:+ media_type), w)
  end.
Proof.
  unfold check_content_type.
  destruct (Py.truthy (content_type req)) as [ct|]; [|reflexivity].
  destruct (decide (ct = media_type)); reflexivity.
Qed.

Lemma update_pets_run (req : Request) (pet_id : string) (w : World) :
  update_pets req pet_id w =
  match Py.truthy (content_type req) with
  | None => (Aborted 400 "No Content-Type set", w)
  | Some ct =>
      if decide (ct = "application/json") then
        match docs w !! pet_id with
        | None =>
            (Aborted 404 ("Pet with id '" +:+ pet_id +:+ "' was not found."),
             {| docs := docs w; calls := calls w ++ [call_find pet_id] |})
        | Some old =>
            match json_body req with
            | None =>
                (Aborted 400 "Bad Request",
                 {| docs := docs w; calls := calls w ++ [call_find pet_id] |})
            | Some data =>
                match Pet.fields_of data with
                | None =>
                    (Aborted 400 "Invalid pet: bad or missing data",
                     {| docs := docs w;
                        calls := calls w ++
                          [call_find pet_id;
                           call_deserialize (mkPet (Some pet_id) old) data] |})
                | Some f =>
                    (Done (pet_response (mkPet (Some pet_id) f)),
                     {| docs := <[pet_id := f]> (docs w);
                        calls := calls w ++
                          [call_find pet_id;
                           call_deserialize (mkPet (Some pet_id) old) data;
                           call_update (mkPet (Some pet_id) f)] |})
                end
            end
        end
      else (Aborted 415 "Content-Type must be application/json", w)
  end.
Proof.
  unfold update_pets. rewrite run_bind, check_content_type_run.
  destruct (Py.truthy (content_type req)) as [ct|]; [|reflexivity].
  destruct (decide (ct = "application/json")); [|reflexivity].
  rewrite run_bind, run_find. cbn.
  destruct (docs w !! pet_id) as [old|]; cbn; [|reflexivity].
  rewrite run_bind. unfold get_json.
  destruct (json_body req) as [data|]; cbn; [|reflexivity].
  rewrite run_bind. unfold Pet.deserialize. rewrite run_bind. cbn.
  destruct (Pet.fields_of data) as [f|]; cbn; [|by rewrite <- app_assoc].
  rewrite run_bind. erewrite run_update by reflexivity. cbn.
  by rewrite <- !app_assoc.
Qed.

(** C7, as amended. An update request passes the content-type check only
    with Content-Type exactly [application/json]; a Content-Type that is
    missing or empty fails with HTTP 400, one that is not empty and differs
    fails with HTTP 415; both before any call on the store, the lookup being
    the first call once the check has passed. *)
Theorem update_checks_content_type
    (req : Request) (pet_id : string) (w : World) :
  (content_type req = None ∨ content_type req = Some "" →
   update_pets req pet_id w = (Aborted 400 "No Content-Type set", w))
  ∧ (∀ ct : string,
       content_type req = Some ct → ct ≠ "" → ct ≠ "application/json" →
       update_pets req pet_id w =
         (Aborted 415 "Content-Type must be application/json", w))
  ∧ (content_type req = Some "application/json" →
     check_content_type req "application/json" w = (Done tt, w) ∧
     head (new_calls w (update_pets req pet_id w).2) = Some (call_find pet_id)).
Proof.
  split; [|split].
  - intros Hct. rewrite update_pets_run.
    by rewrite (proj2 (truthy_None _) Hct).
  - intros ct Hct Hne Hother. rewrite update_pets_run.
    rewrite (proj2 (truthy_Some _ ct) (conj Hct Hne)).
    by rewrite decide_False.
  - intros Hct. rewrite check_content_type_run, update_pets_run, Hct.
    cbn [Py.truthy].
    destruct (decide ("application/json" = "application/json")) as [_|Hne];
      [|by destruct Hne].
    split; [reflexivity|].
    destruct (docs w !! pet_id) as [old|];
      [|cbn [snd]; by rewrite new_calls_app].
    destruct (json_body req) as [data|];
      [|cbn [snd]; by rewrite new_calls_app].
    destruct (Pet.fields_of data); cbn [snd]; by rewrite new_calls_app.
Qed.

Lemma update_checks_content_type_witness :
  (content_type (post (Some "") (Some rex_json)) = Some "" ∧
   update_pets (post (Some "") (Some rex_json)) "1" shop =
     (Aborted 400 "No Content-Type set", shop)) ∧
  (content_type (post (Some "text/plain") (Some rex_json))
     = Some "text/plain" ∧
   "text/plain" ≠ "" ∧ "text/plain" ≠ "application/json" ∧
   update_pets (post (Some "text/plain") (Some rex_json)) "1" shop =
     (Aborted 415 "Content-Type must be application/json", shop)) ∧
  (content_type (post (Some "application/json") (Some rex_json))
     = Some "application/json" ∧
   head (new_calls shop
      (update_pets (post (Some "application/json") (Some rex_json))
                   "1" shop).2) = Some (call_find "1")).
Proof.
  split; [|split].
  - split; [reflexivity|].
    exact (proj1 (update_checks_content_type
                    (post (Some "") (Some rex_json)) "1" shop)
                 (or_intror eq_refl)).
  - assert (Hne : "text/plain" ≠ "") by discriminate.
    assert (Hj : "text/plain" ≠ "application/json") by discriminate.
    split; [reflexivity|]. split; [exact Hne|]. split; [exact Hj|].
    exact (proj1 (proj2 (update_checks_content_type
                    (post (Some "text/plain") (Some rex_json)) "1" shop))
                 "text/plain" eq_refl Hne Hj).
  - split; [reflexivity|].
    exact (proj2 (proj2 (proj2 (update_checks_content_type
                    (post (Some "application/json") (Some rex_json))
                    "1" shop)) eq_refl)).
Defined.

(** C7 as worded fails: a Content-Type header that is present with the
    empty string as its value differs from [application/json], and the
    update is refused with HTTP 400, not 415. *)
Lemma update_empty_content_type_is_400 :
  content_type (post (Some "") (Some rex_json)) = Some "" ∧
  "" ≠ "application/json" ∧
  status_of (update_pets (post (Some "") (Some rex_json)) "1" shop).1 = 400 ∧
  status_of (update_pets (post (Some "") (Some rex_json)) "1" shop).1 ≠ 415.
Proof.
  split; [reflexivity|]. split; [discriminate|].
  split; [reflexivity|discriminate].
Qed.

Lemma Gender_of_name_name (g : Gender) :
  Gender_of_name (Gender_name g) = Some g.
Proof. by destruct g. Qed.

(** C8. An update request with Content-Type [application/json] on an
    existing Pet, whose body gives the four fields, is answered HTTP 200
    with the serialized Pet made of the path id and the four fields of the
    body, and that record is stored under the path id by one [update];
    whatever id the body carries plays no part.  Every update answered
    without error is of this kind. *)
Theorem update_replaces_fields_path_id_wins
    (req : Request) (pet_id : string) (w : World) :
  (∀ (old : Fields) (m : gmap string json) (n c : string) (a : bool)
     (g : Gender),
     content_type req = Some "application/json" →
     docs w !! pet_id = Some old →
     json_body req = Some (JObj m) →
     m !! "name" = Some (JStr n) →
     m !! "category" = Some (JStr c) →
     m !! "available" = Some (JBool a) →
     m !! "gender" = Some (JStr (Gender_name g)) →
     let f := {| name := n; category := c; available := a; gender := g |} in
     let pet := {| id := Some pet_id; fields := f |} in
     update_pets req pet_id w =
       (Done {| status_code := 200; body := jsonify (Pet.serialize pet);
                headers := [] |},
        {| docs := <[pet_id := f]> (docs w);
           calls := calls w ++
             [call_find pet_id;
              call_deserialize (mkPet (Some pet_id) old) (JObj m);
              call_update pet] |}))
  ∧ (∀ (resp : Response) (w' : World),
       update_pets req pet_id w = (Done resp, w') →
       ∃ (data : json) (f : Fields),
         json_body req = Some data ∧
         Pet.fields_of data = Some f ∧
         is_Some (docs w !! pet_id) ∧
         resp = {| status_code := 200;
                   body := jsonify (Pet.serialize (mkPet (Some pet_id) f));
                   headers := [] |} ∧
         docs w' = <[pet_id := f]> (docs w) ∧
         docs w' !! pet_id = Some f).
Proof.
  split.
  - intros old m n c a g Hct Hold Hbody Hn Hc Ha Hg f pet.
    rewrite update_pets_run, Hct. cbn [Py.truthy].
    rewrite decide_True by reflexivity. rewrite Hold, Hbody.
    assert (Hf : Pet.fields_of (JObj m) = Some f).
    { unfold Pet.fields_of. by rewrite Hn, Hc, Ha, Hg, Gender_of_name_name. }
    by rewrite Hf.
  - intros resp w' Hrun. rewrite update_pets_run in Hrun.
    destruct (Py.truthy (content_type req)) as [ct|]; [|discriminate Hrun].
    destruct (decide (ct = "application/json")); [|discriminate Hrun].
    destruct (docs w !! pet_id) as [old|] eqn:Hold; [|discriminate Hrun].
    destruct (json_body req) as [data|]; [|discriminate Hrun].
    destruct (Pet.fields_of data) as [f|] eqn:Hf; [|discriminate Hrun].
    injection Hrun as <- <-. exists data, f.
    repeat split; eauto. apply lookup_insert_eq.
Qed.

Lemma update_replaces_fields_path_id_wins_witness :
  docs shop !! "1" = Some fido ∧
  json_body (post (Some "application/json") (Some rex_json))
    = Some rex_json ∧
  Pet.id_of None rex_json = Some "999" ∧
  status_of
    (update_pets (post (Some "application/json") (Some rex_json))
                 "1" shop).1 = 200 ∧
  docs (update_pets (post (Some "application/json") (Some rex_json))
                    "1" shop).2 !! "1" = Some rex ∧
  docs (update_pets (post (Some "application/json") (Some rex_json))
                    "1" shop).2 !! "999" = None.
Proof.
  assert (H1 : docs shop !! "1" = Some fido) by (vm_compute; reflexivity).
  split; [exact H1|]. split; [reflexivity|].
  split; [vm_compute; reflexivity|].
  rewrite (proj1 (update_replaces_fields_path_id_wins
             (post (Some "application/json") (Some rex_json)) "1" shop)
             fido _ "rex" "dog" true MALE eq_refl H1 eq_refl
             ltac:(vm_compute; reflexivity) ltac:(vm_compute; reflexivity)
             ltac:(vm_compute; reflexivity) ltac:(vm_compute; reflexivity)).
  split; [reflexivity|]. split; vm_compute; reflexivity.
Defined.

(** ** Errors and the store *)

Lemma get_pets_run (pet_id : string) (w : World) :
  get_pets pet_id w =
  (match docs w !! pet_id with
   | Some f => Done (pet_response (mkPet (Some pet_id) f))
   | None =>
       Aborted 404 ("Pet with id '" +:+ pet_id +:+ "' was not found.")
   end,
   {| docs := docs w; calls := calls w ++ [call_find pet_id] |}).
Proof.
  unfold get_pets. rewrite run_bind, run_find. cbn.
  destruct (docs w !! pet_id); reflexivity.
Qed.

Lemma create_data_abort (req : Request) (ct : string) (w : World)
    (code : Z) (message : string) :
  (create_data req ct w).1 = Aborted code message → code = 400.
Proof.
  destruct (decide (ct = "application/x-www-form-urlencoded")) as [->|Hform].
  - rewrite create_data_form_run.
    destruct (Py.get "name" (form req)), (Py.get "category" (form req)),
      (Py.get "available" (form req)), (Py.get "gender" (form req));
      cbn; congruence.
  - destruct (decide (ct = "application/json")) as [->|Hjson].
    + rewrite create_data_json. destruct (json_body req); cbn; congruence.
    + rewrite create_data_unsupported by assumption. cbn. congruence.
Qed.

Ltac store_untouched :=
  cbn [fst snd docs];
  rewrite ?new_calls_app, ?new_calls_same;
  repeat split;
  repeat first [ apply Forall_nil_2 | apply Forall_cons_2; [reflexivity|] ];
  repeat first [ apply list_elem_of_here | apply list_elem_of_further ].

Ltac not_client_error :=
  let H := fresh in
  intros H; exfalso;
  cbn [fst status_of pets_response pet_response make_response status_code]
    in H;
  unfold status.HTTP_200_OK in H; lia.

(** C10. A request answered with a 4xx status has written nothing: the
    records of the store are those before the request, and no [create],
    [update] or [delete] was called.  The statuses in question are 400,
    404, 409 and 415, and a handler that aborts does so with one of
    them. *)
Theorem client_error_leaves_store_unchanged
    (r : Route) (req : Request) (w : World) :
  (400 ≤ status_of (handle r req w).1 < 500 →
   docs (handle r req w).2 = docs w ∧
   Forall (λ c, is_write c = false) (new_calls w (handle r req w).2) ∧
   status_of (handle r req w).1 ∈ [400; 404; 409; 415])
  ∧ (∀ (code : Z) (message : string) (w' : World),
       handle r req w = (Aborted code message, w') →
       400 ≤ code < 500).
Proof.
  destruct r as [|pet_id| |pet_id|pet_id|pet_id]; cbn [handle].
  - rewrite list_pets_run, listing_run. split; [|discriminate].
    not_client_error.
  - rewrite get_pets_run.
    destruct (docs w !! pet_id) as [f|]; (split; [cbn [fst status_of]|]).
    + not_client_error.
    + discriminate.
    + intros _. store_untouched.
    + intros code message w' [= <- _ _]. lia.
  - rewrite create_pets_run.
    destruct (Py.truthy (content_type req)) as [ct|].
    2: { split; [intros _; store_untouched|]. intros ? ? ? [= <- _ _]. lia. }
    destruct (create_data req ct w).1 as [data|code message] eqn:Hdata.
    2: { apply create_data_abort in Hdata as ->.
         split; [intros _; store_untouched|]. intros ? ? ? [= <- _ _]. lia. }
    destruct (Pet.fields_of data) as [f|].
    + split; [|discriminate]. not_client_error.
    + split; [intros _; store_untouched|]. intros ? ? ? [= <- _ _]. lia.
  - rewrite update_pets_run.
    destruct (Py.truthy (content_type req)) as [ct|].
    2: { split; [intros _; store_untouched|]. intros ? ? ? [= <- _ _]. lia. }
    destruct (decide (ct = "application/json")).
    2: { split; [intros _; store_untouched|]. intros ? ? ? [= <- _ _]. lia. }
    destruct (docs w !! pet_id) as [old|].
    2: { split; [intros _; store_untouched|]. intros ? ? ? [= <- _ _]. lia. }
    destruct (json_body req) as [data|].
    2: { split; [intros _; store_untouched|]. intros ? ? ? [= <- _ _]. lia. }
    destruct (Pet.fields_of data) as [f|].
    + split; [|discriminate]. not_client_error.
    + split; [intros _; store_untouched|]. intros ? ? ? [= <- _ _]. lia.
  - rewrite delete_pets_run. split; [|discriminate].
    not_client_error.
  - rewrite purchase_pets_run.
    destruct (docs w !! pet_id) as [f|]; [destruct (available f)|].
    + split; [|discriminate]. not_client_error.
    + split; [intros _; store_untouched|]. intros ? ? ? [= <- _ _]. lia.
    + split; [intros _; store_untouched|]. intros ? ? ? [= <- _ _]. lia.
Qed.

Lemma client_error_leaves_store_unchanged_witness :
  400 ≤ status_of (handle (PUT_purchase "2") (query []) shop).1 < 500 ∧
  docs (handle (PUT_purchase "2") (query []) shop).2 = docs shop ∧
  400 ≤ status_of
          (handle POST_pets (post (Some "application/json") None) shop).1
      < 500 ∧
  docs (handle POST_pets (post (Some "application/json") None) shop).2
    = docs shop.
Proof.
  assert (H1 : 400 ≤ status_of
                 (handle (PUT_purchase "2") (query []) shop).1 < 500)
    by (vm_compute; split; [discriminate|reflexivity]).
  assert (H2 : 400 ≤ status_of
                 (handle POST_pets (post (Some "application/json") None)
                         shop).1 < 500)
    by (vm_compute; split; [discriminate|reflexivity]).
  split; [exact H1|]. split.
  - exact (proj1 (proj1 (client_error_leaves_store_unchanged
                           (PUT_purchase "2") (query []) shop) H1)).
  - split; [exact H2|].
    exact (proj1 (proj1 (client_error_leaves_store_unchanged
                           POST_pets (post (Some "application/json") None)
                           shop) H2)).
Defined.


(* ===================================================================== *)
(** * Further properties of the handlers                                  *)
(* ===================================================================== *)

(** ** Retrieve and list *)

(** X1. [get_pets] answers HTTP 200 exactly when a record of the path id
    exists, and then with that record serialized under the path id;
    otherwise it answers HTTP 404 with a message that quotes the id.  Either
    way the store is left as it was, [find] is the only call on the store
    and [deserialize] is not called. *)
Theorem get_pets_found_or_404 (pet_id : string) (w : World) :
  (status_of (get_pets pet_id w).1 = 200 ↔ is_Some (docs w !! pet_id))
  ∧ (status_of (get_pets pet_id w).1 = 404 ↔ docs w !! pet_id = None)
  ∧ (∀ f : Fields,
       docs w !! pet_id = Some f →
       (get_pets pet_id w).1 =
         Done {| status_code := 200;
                 body := jsonify (Pet.serialize (mkPet (Some pet_id) f));
                 headers := [] |})
  ∧ (docs w !! pet_id = None →
     (get_pets pet_id w).1 =
       Aborted 404 ("Pet with id '" +:+ pet_id +:+ "' was not found."))
  ∧ docs (get_pets pet_id w).2 = docs w
  ∧ new_calls w (get_pets pet_id w).2 = [call_find pet_id].
Proof.
  rewrite get_pets_run. cbn [fst snd docs]. rewrite new_calls_app.
  destruct (docs w !! pet_id) as [f|] eqn:Hf; cbn [status_of].
  - split; [split; [eauto | reflexivity]|].
    split; [split; discriminate|].
    split; [by intros ? [= <-]|]. split; [discriminate|done].
  - split; [split; [discriminate | by intros [? ?]]|].
    split; [done|]. split; [discriminate|done].
Qed.

Lemma get_pets_found_or_404_witness :
  docs shop !! "2" = Some kitty ∧
  (get_pets "2" shop).1 =
    Done {| status_code := 200;
            body := jsonify (Pet.serialize (mkPet (Some "2") kitty));
            headers := [] |} ∧
  docs shop !! "7" = None ∧
  (get_pets "7" shop).1 = Aborted 404 "Pet with id '7' was not found.".
Proof.
  assert (H2 : docs shop !! "2" = Some kitty) by (vm_compute; reflexivity).
  assert (H7 : docs shop !! "7" = None) by (vm_compute; reflexivity).
  destruct (get_pets_found_or_404 "2" shop) as (_ & _ & Hfound & _).
  destruct (get_pets_found_or_404 "7" shop) as (_ & _ & _ & Hnone & _).
  split; [exact H2|]. split; [exact (Hfound kitty H2)|].
  split; [exact H7|]. exact (Hnone H7).
Defined.


(** ** The routes taken together *)

Ltac listed :=
  cbn [fst status_of status_code pet_response pets_response make_response];
  repeat first [ apply list_elem_of_here | apply list_elem_of_further ].

Lemma handle_status_listed (r : Route) (req : Request) (w : World) :
  status_of (handle r req w).1 ∈ route_statuses r.
Proof.
  destruct r as [|pet_id| |pet_id|pet_id|pet_id];
    cbn [handle route_statuses].
  - rewrite list_pets_run, listing_run. listed.
  - rewrite get_pets_run. destruct (docs w !! pet_id); listed.
  - rewrite create_pets_run.
    destruct (Py.truthy (content_type req)) as [ct|]; [|listed].
    destruct (create_data req ct w).1 as [data|code message] eqn:Hdata.
    + destruct (Pet.fields_of data); listed.
    + apply create_data_abort in Hdata as ->. listed.
  - rewrite update_pets_run.
    destruct (Py.truthy (content_type req)) as [ct|]; [|listed].
    destruct (decide (ct = "application/json")); [|listed].
    destruct (docs w !! pet_id); [|listed].
    destruct (json_body req) as [data|]; [|listed].
    destruct (Pet.fields_of data); listed.
  - rewrite delete_pets_run. listed.
  - rewrite purchase_pets_run.
    destruct (docs w !! pet_id) as [f|]; [destruct (available f)|]; listed.
Qed.

Lemma fields_of_rex_json : Pet.fields_of rex_json = Some rex.
Proof. vm_compute. reflexivity. Qed.

(** X3. The statuses of each route are exactly these: 200 for the list;
    200 and 404 for a retrieve; 201 and 400 for a create; 200, 400, 404 and
    415 for an update; 204 for a delete; 200, 404 and 409 for a purchase.
    No request gets another status, and each of them is the answer to some
    request. *)
Theorem route_statuses_exact (r : Route) (c : Z) :
  c ∈ route_statuses r ↔
  ∃ (req : Request) (w : World), status_of (handle r req w).1 = c.
Proof.
  split; [|intros (req & w & <-); apply handle_status_listed].
  pose (nobody := {| docs := ∅; calls := [] |}).
  assert (Hnone : ∀ k : string, docs nobody !! k = None)
    by (intros k; apply lookup_empty).
  assert (Hone : ∀ (k : string) (f : Fields), docs (only k f) !! k = Some f)
    by (intros k f; apply lookup_singleton_eq).
  destruct r as [|pet_id| |pet_id|pet_id|pet_id];
    cbn [route_statuses]; intros Hc;
    repeat (apply elem_of_cons in Hc as [->|Hc]);
    try (by apply elem_of_nil in Hc); cbn [handle].
  - exists (query []), nobody. by rewrite list_pets_run, listing_run.
  - exists (query []), (only pet_id fido). by rewrite get_pets_run, Hone.
  - exists (query []), nobody. by rewrite get_pets_run, Hnone.
  - exists (post (Some "application/json") (Some rex_json)), nobody.
    rewrite create_pets_run. cbn [post content_type Py.truthy].
    rewrite create_data_json. cbn [post json_body fst].
    by rewrite fields_of_rex_json.
  - exists (post None None), nobody. by rewrite create_pets_run.
  - exists (post (Some "application/json") (Some rex_json)),
      (only pet_id fido).
    rewrite update_pets_run. cbn [post content_type Py.truthy json_body].
    rewrite decide_True by reflexivity.
    by rewrite Hone, fields_of_rex_json.
  - exists (post None None), nobody. by rewrite update_pets_run.
  - exists (post (Some "application/json") None), nobody.
    rewrite update_pets_run. cbn [post content_type Py.truthy].
    rewrite decide_True by reflexivity. by rewrite Hnone.
  - exists (post (Some "text/plain") None), nobody.
    by rewrite update_pets_run.
  - exists (query []), nobody. by rewrite delete_pets_run.
  - exists (query []), (only pet_id fido).
    by rewrite purchase_pets_run, Hone.
  - exists (query []), nobody. by rewrite purchase_pets_run, Hnone.
  - exists (query []), (only pet_id kitty).
    by rewrite purchase_pets_run, Hone.
Qed.

Lemma fresh_not_stored (d : gmap string Fields) (k : string) :
  is_Some (d !! k) → fresh (dom d) ≠ k.
Proof.
  intros Hk Heq. apply (is_fresh (dom d)). rewrite Heq. by apply elem_of_dom.
Qed.

(** What a request may do to the records: nothing, store one under the id
    of its path where one was, remove that one, or store one under an id
    that no record had. *)
Lemma handle_docs (r : Route) (req : Request) (w : World) :
  docs (handle r req w).2 = docs w
  ∨ (∃ (k : string) (f : Fields),
       (r = PUT_pet k ∨ r = PUT_purchase k) ∧ is_Some (docs w !! k) ∧
       docs (handle r req w).2 = <[k := f]> (docs w))
  ∨ (∃ k : string,
       r = DELETE_pet k ∧ docs (handle r req w).2 = delete k (docs w))
  ∨ (∃ f : Fields,
       r = POST_pets ∧
       docs (handle r req w).2 = <[fresh (dom (docs w)) := f]> (docs w)).
Proof.
  destruct r as [|pet_id| |pet_id|pet_id|pet_id]; cbn [handle].
  - left. by rewrite list_pets_run, listing_run.
  - left. by rewrite get_pets_run.
  - rewrite create_pets_run.
    destruct (Py.truthy (content_type req)) as [ct|]; [|by left].
    destruct (create_data req ct w).1 as [data|code message]; [|by left].
    destruct (Pet.fields_of data) as [f|]; [|by left].
    do 3 right. by exists f.
  - rewrite update_pets_run.
    destruct (Py.truthy (content_type req)) as [ct|]; [|by left].
    destruct (decide (ct = "application/json")); [|by left].
    destruct (docs w !! pet_id) as [old|] eqn:Hold; [|by left].
    destruct (json_body req) as [data|]; [|by left].
    destruct (Pet.fields_of data) as [f|]; [|by left].
    right. left. exists pet_id, f. rewrite Hold. eauto.
  - rewrite delete_pets_run. destruct (docs w !! pet_id) as [f|] eqn:Hf.
    + do 2 right. left. by exists pet_id.
    + left. done.
  - rewrite purchase_pets_run.
    destruct (docs w !! pet_id) as [f|] eqn:Hf; [|by left].
    destruct (available f); [|by left].
    right. left. eexists pet_id, _. rewrite Hf. eauto.
Qed.

(** X4. A request touches at most one record.  Every record stored under
    an id other than the id of the request's path is the same after the
    request; a record appears under an id that had none only through a
    create; and a record disappears only through a delete of its id. *)
Theorem request_touches_only_its_record
    (r : Route) (req : Request) (w : World) :
  (∀ (k : string) (f : Fields),
     docs w !! k = Some f → path_id r ≠ Some k →
     docs (handle r req w).2 !! k = Some f)
  ∧ (∀ k : string,
       docs w !! k = None → is_Some (docs (handle r req w).2 !! k) →
       r = POST_pets)
  ∧ (∀ k : string,
       is_Some (docs w !! k) → docs (handle r req w).2 !! k = None →
       r = DELETE_pet k).
Proof.
  destruct (handle_docs r req w)
    as [Hd|[(k0 & f0 & Hr & Hk0 & Hd)|[(k0 & -> & Hd)|(f0 & -> & Hd)]]];
    rewrite Hd; clear Hd.
  - split; [done|]. split.
    + intros k Hnone [f Hf]. congruence.
    + intros k [f Hf] Hnone. congruence.
  - split; [|split].
    + intros k f Hf Hne. rewrite lookup_insert_ne; [done|].
      intros ->. by destruct Hr as [->| ->]; apply Hne.
    + intros k Hnone [f Hf]. destruct (decide (k0 = k)) as [->|Hne].
      * destruct Hk0 as [? ?]. congruence.
      * rewrite lookup_insert_ne in Hf by done. congruence.
    + intros k [f Hf] Hnone. destruct (decide (k0 = k)) as [->|Hne].
      * by rewrite lookup_insert_eq in Hnone.
      * rewrite lookup_insert_ne in Hnone by done. congruence.
  - split; [|split].
    + intros k f Hf Hne. rewrite lookup_delete_ne; [done|].
      intros ->. by apply Hne.
    + intros k Hnone [f Hf]. destruct (decide (k0 = k)) as [->|Hne].
      * by rewrite lookup_delete_eq in Hf.
      * rewrite lookup_delete_ne in Hf by done. congruence.
    + intros k [f Hf] Hnone. destruct (decide (k0 = k)) as [->|Hne]; [done|].
      rewrite lookup_delete_ne in Hnone by done. congruence.
  - split; [|split; [done|]].
    + intros k f Hf _. rewrite lookup_insert_ne; [done|].
      apply fresh_not_stored. by rewrite Hf.
    + intros k Hk Hnone. rewrite lookup_insert_ne in Hnone.
      * destruct Hk as [f Hf]. congruence.
      * by apply fresh_not_stored.
Qed.

Lemma request_touches_only_its_record_witness :
  docs shop !! "2" = Some kitty ∧
  path_id (PUT_purchase "1") ≠ Some "2" ∧
  docs (handle (PUT_purchase "1") (query []) shop).2 !! "2" = Some kitty ∧
  path_id POST_pets ≠ Some "2" ∧
  docs (handle POST_pets (post (Some "application/json") (Some rex_json))
               shop).2 !! "2" = Some kitty.
Proof.
  assert (H2 : docs shop !! "2" = Some kitty) by (vm_compute; reflexivity).
  assert (Hp : path_id (PUT_purchase "1") ≠ Some "2") by discriminate.
  assert (Hc : path_id POST_pets ≠ Some "2") by discriminate.
  split; [exact H2|]. split; [exact Hp|]. split.
  - exact (proj1 (request_touches_only_its_record
                    (PUT_purchase "1") (query []) shop) "2" kitty H2 Hp).
  - split; [exact Hc|].
    exact (proj1 (request_touches_only_its_record POST_pets
                    (post (Some "application/json") (Some rex_json)) shop)
                 "2" kitty H2 Hc).
Defined.

(** ** The availability of a Pet *)

(** X5. A Pet that is not available becomes available again only through
    an update of its id whose body says so: if the record under [k] has
    [available] false before a request and [available] true after it, the
    request is [PUT /pets/k] and its body deserializes to the new record.
    No list, retrieve, create, delete or purchase does it. *)
Theorem available_again_only_by_update
    (r : Route) (req : Request) (w : World) (k : string) (f f' : Fields) :
  docs w !! k = Some f → available f = false →
  docs (handle r req w).2 !! k = Some f' → available f' = true →
  r = PUT_pet k ∧
  ∃ data : json, json_body req = Some data ∧ Pet.fields_of data = Some f'.
Proof.
  intros Hf Ha Hf' Ha'.
  assert (Hchanged : docs (handle r req w).2 !! k ≠ docs w !! k)
    by (rewrite Hf, Hf'; intros [= ->]; congruence).
  destruct r as [|pet_id| |pet_id|pet_id|pet_id]; cbn [handle] in *.
  - rewrite list_pets_run, listing_run in Hchanged. by destruct Hchanged.
  - rewrite get_pets_run in Hchanged. by destruct Hchanged.
  - destruct (handle_docs POST_pets req w)
      as [Hd|[(k0 & f0 & [Hr|Hr] & _)|[(k0 & Hr & _)|(f0 & _ & Hd)]]];
      try discriminate Hr; cbn [handle] in Hd; rewrite Hd in Hchanged.
    + by destruct Hchanged.
    + rewrite lookup_insert_ne in Hchanged; [by destruct Hchanged|].
      apply fresh_not_stored. by rewrite Hf.
  - rewrite update_pets_run in Hf'.
    destruct (Py.truthy (content_type req)) as [ct|];
      [|cbn in Hf'; congruence].
    destruct (decide (ct = "application/json")); [|cbn in Hf'; congruence].
    destruct (docs w !! pet_id) as [old|]; [|cbn in Hf'; congruence].
    destruct (json_body req) as [data|]; [|cbn in Hf'; congruence].
    destruct (Pet.fields_of data) as [f0|] eqn:Hdata;
      [|cbn in Hf'; congruence].
    cbn [snd docs] in Hf'. destruct (decide (pet_id = k)) as [->|Hne].
    + rewrite lookup_insert_eq in Hf'. injection Hf' as ->. eauto.
    + rewrite lookup_insert_ne in Hf' by done. congruence.
  - rewrite delete_pets_run in Hf'.
    destruct (docs w !! pet_id); cbn [snd docs] in Hf'; [|congruence].
    destruct (decide (pet_id = k)) as [->|Hne].
    + by rewrite lookup_delete_eq in Hf'.
    + rewrite lookup_delete_ne in Hf' by done. congruence.
  - rewrite purchase_pets_run in Hf'.
    destruct (docs w !! pet_id) as [f0|] eqn:Hf0;
      [|cbn in Hf'; congruence].
    destruct (available f0) eqn:Ha0; [|cbn in Hf'; congruence].
    cbn [snd docs] in Hf'. destruct (decide (pet_id = k)) as [->|Hne].
    + rewrite lookup_insert_eq in Hf'. injection Hf' as <-. discriminate Ha'.
    + rewrite lookup_insert_ne in Hf' by done. congruence.
Qed.

Lemma available_again_only_by_update_witness :
  docs shop !! "2" = Some kitty ∧ available kitty = false ∧
  docs (handle (PUT_pet "2")
               (post (Some "application/json") (Some rex_json)) shop).2
    !! "2" = Some rex ∧
  available rex = true ∧
  json_body (post (Some "application/json") (Some rex_json))
    = Some rex_json.
Proof.
  assert (H2 : docs shop !! "2" = Some kitty) by (vm_compute; reflexivity).
  assert (Hrex : docs (handle (PUT_pet "2")
               (post (Some "application/json") (Some rex_json)) shop).2
             !! "2" = Some rex) by (vm_compute; reflexivity).
  destruct (available_again_only_by_update (PUT_pet "2")
              (post (Some "application/json") (Some rex_json)) shop
              "2" kitty rex H2 eq_refl Hrex eq_refl)
    as (_ & data & Hbody & _).
  split; [exact H2|]. split; [reflexivity|]. split; [exact Hrex|].
  split; [reflexivity|]. reflexivity.
Defined.

(** X6. A Pet is purchased at most once: after a purchase request on an
    existing Pet, whatever its answer, the next purchase of the same id is
    refused with HTTP 409, changes no record and calls no [update]. *)
Theorem purchase_again_is_409 (pet_id : string) (w : World) :
  is_Some (docs w !! pet_id) →
  let w1 := (purchase_pets pet_id w).2 in
  (purchase_pets pet_id w1).1 =
    Aborted 409 ("Pet with id '" +:+ pet_id +:+ "' is not available.")
  ∧ docs (purchase_pets pet_id w1).2 = docs w1
  ∧ new_calls w1 (purchase_pets pet_id w1).2 = [call_find pet_id].
Proof.
  intros [f Hf] w1.
  assert (Hsold : ∃ f1, docs w1 !! pet_id = Some f1 ∧ available f1 = false).
  { subst w1. rewrite purchase_pets_run, Hf.
    destruct (available f) eqn:Ha; cbn [snd docs].
    - rewrite lookup_insert_eq. by eexists.
    - by exists f. }
  destruct Hsold as (f1 & Hf1 & Ha1).
  rewrite (purchase_pets_run pet_id w1), Hf1, Ha1. cbn [fst snd docs].
  by rewrite new_calls_app.
Qed.

Lemma purchase_again_is_409_witness :
  is_Some (docs shop !! "1") ∧
  status_of (purchase_pets "1" shop).1 = 200 ∧
  status_of (purchase_pets "1" (purchase_pets "1" shop).2).1 = 409.
Proof.
  assert (H1 : is_Some (docs shop !! "1"))
    by (exists fido; vm_compute; reflexivity).
  split; [exact H1|]. split; [vm_compute; reflexivity|].
  rewrite (proj1 (purchase_again_is_409 "1" shop H1)). reflexivity.
Defined.

(** ** Requests one after the other *)

(** X7. After a delete request the Pet of that id is gone, whether it was
    there or not: a retrieve and a purchase of the id answer HTTP 404, so
    does an update with Content-Type [application/json], and a second
    delete answers HTTP 204 again without calling [delete] and without
    changing a record. *)
Theorem deleted_pet_is_gone (pet_id : string) (req : Request) (w : World) :
  let w1 := (delete_pets pet_id w).2 in
  status_of (get_pets pet_id w1).1 = 404
  ∧ status_of (purchase_pets pet_id w1).1 = 404
  ∧ (content_type req = Some "application/json" →
     status_of (update_pets req pet_id w1).1 = 404)
  ∧ status_of (delete_pets pet_id w1).1 = 204
  ∧ docs (delete_pets pet_id w1).2 = docs w1
  ∧ new_calls w1 (delete_pets pet_id w1).2 = [call_find pet_id].
Proof.
  intros w1.
  assert (Hgone : docs w1 !! pet_id = None)
    by (subst w1; rewrite delete_pets_run;
        destruct (docs w !! pet_id) eqn:Hw; cbn [snd docs];
        [apply lookup_delete_eq | exact Hw]).
  rewrite get_pets_run, purchase_pets_run, update_pets_run, delete_pets_run.
  rewrite !Hgone. cbn [fst snd docs status_of status_code].
  rewrite new_calls_app. repeat split.
  intros ->. cbn [Py.truthy]. by rewrite decide_True.
Qed.

Lemma deleted_pet_is_gone_witness :
  content_type (post (Some "application/json") (Some rex_json))
    = Some "application/json" ∧
  status_of (get_pets "1" shop).1 = 200 ∧
  status_of (update_pets (post (Some "application/json") (Some rex_json))
                         "1" (delete_pets "1" shop).2).1 = 404.
Proof.
  split; [reflexivity|]. split; [vm_compute; reflexivity|].
  exact (proj1 (proj2 (proj2 (deleted_pet_is_gone "1"
           (post (Some "application/json") (Some rex_json)) shop)))
           eq_refl).
Defined.

(** X8. What a write returns is what a retrieve then finds: after an
    update or a purchase answered HTTP 200, a retrieve of the same id
    answers with the very same response. *)
Theorem write_is_read_back
    (req : Request) (pet_id : string) (w w1 : World) (resp : Response) :
  update_pets req pet_id w = (Done resp, w1) ∨
  purchase_pets pet_id w = (Done resp, w1) →
  (get_pets pet_id w1).1 = Done resp.
Proof.
  rewrite update_pets_run, purchase_pets_run, get_pets_run. cbn [fst].
  intros [Hrun|Hrun].
  - destruct (Py.truthy (content_type req)) as [ct|]; [|discriminate Hrun].
    destruct (decide (ct = "application/json")); [|discriminate Hrun].
    destruct (docs w !! pet_id) as [old|]; [|discriminate Hrun].
    destruct (json_body req) as [data|]; [|discriminate Hrun].
    destruct (Pet.fields_of data) as [f|]; [|discriminate Hrun].
    injection Hrun as <- <-. cbn [docs]. by rewrite lookup_insert_eq.
  - destruct (docs w !! pet_id) as [f|]; [|discriminate Hrun].
    destruct (available f); [|discriminate Hrun].
    injection Hrun as <- <-. cbn [docs]. by rewrite lookup_insert_eq.
Qed.

Lemma write_is_read_back_witness :
  purchase_pets "1" shop =
    (Done (pet_response (set_available false (mkPet (Some "1") fido))),
     (purchase_pets "1" shop).2) ∧
  (get_pets "1" (purchase_pets "1" shop).2).1 =
    Done (pet_response (set_available false (mkPet (Some "1") fido))).
Proof.
  assert (Hrun : purchase_pets "1" shop =
    (Done (pet_response (set_available false (mkPet (Some "1") fido))),
     (purchase_pets "1" shop).2)) by (vm_compute; reflexivity).
  split; [exact Hrun|].
  exact (write_is_read_back (query []) "1" shop _ _ (or_intror Hrun)).
Defined.

(** X9. A create that is answered without error is answered HTTP 201 with
    the new Pet serialized under an id that no record had, whatever id the
    body carried, and with one header, [Location], which is the URL of the
    retrieve endpoint for that id; a retrieve of that id then answers HTTP
    200 with the same body.  The records that were there are kept. *)
Theorem created_pet_is_retrieved
    (req : Request) (w w1 : World) (resp : Response) :
  create_pets req w = (Done resp, w1) →
  ∃ (k : string) (f : Fields),
    docs w !! k = None ∧
    resp = {| status_code := 201;
              body := jsonify (Pet.serialize (mkPet (Some k) f));
              headers := [("Location", url_root req +:+ "/pets/" +:+ k)] |} ∧
    (get_pets k w1).1 =
      Done {| status_code := 200; body := body resp; headers := [] |} ∧
    docs w1 = <[k := f]> (docs w).
Proof.
  rewrite create_pets_run. intros Hrun.
  destruct (Py.truthy (content_type req)) as [ct|]; [|discriminate Hrun].
  destruct (create_data req ct w).1 as [data|code message];
    [|discriminate Hrun].
  destruct (Pet.fields_of data) as [f|]; [|discriminate Hrun].
  cbn zeta in Hrun. injection Hrun as <- <-.
  exists (fresh (dom (docs w))), f. split; [|split; [done|split; [|done]]].
  - apply not_elem_of_dom, is_fresh.
  - rewrite get_pets_run. cbn [fst docs body]. by rewrite lookup_insert_eq.
Qed.

Lemma created_pet_is_retrieved_witness :
  status_of
    (create_pets (post (Some "application/json") (Some rex_json)) shop).1
    = 201 ∧
  ∃ k : string,
    docs shop !! k = None ∧
    status_of
      (get_pets k
         (create_pets (post (Some "application/json") (Some rex_json))
                      shop).2).1 = 200.
Proof.
  destruct (create_pets (post (Some "application/json") (Some rex_json))
                        shop) as [o w1] eqn:Hrun.
  assert (Hdone : ∃ resp, o = Done resp ∧ status_code resp = 201).
  { rewrite create_pets_run in Hrun. cbn [post content_type Py.truthy] in Hrun.
    rewrite create_data_json in Hrun. cbn [post json_body fst] in Hrun.
    rewrite fields_of_rex_json in Hrun. injection Hrun as <- _.
    eexists. split; reflexivity. }
  destruct Hdone as (resp & -> & Hcode).
  destruct (created_pet_is_retrieved _ _ _ _ Hrun)
    as (k & f & Hnew & Hresp & Hget & Hdocs).
  split; [exact Hcode|]. exists k. split; [exact Hnew|].
  cbn [snd]. by rewrite Hget.
Defined.

(** ** Update: which error comes first *)

(** X10. For an update with Content-Type [application/json] the answer is
    decided in this order: HTTP 404 exactly when no record has the path id,
    and then the body is not looked at, only [find] is called; otherwise
    HTTP 400 exactly when the body is not JSON or does not deserialize;
    otherwise HTTP 200. *)
Theorem update_answer_order
    (req : Request) (pet_id : string) (w : World) :
  content_type req = Some "application/json" →
  (status_of (update_pets req pet_id w).1 = 404 ↔ docs w !! pet_id = None)
  ∧ (docs w !! pet_id = None →
     new_calls w (update_pets req pet_id w).2 = [call_find pet_id])
  ∧ (status_of (update_pets req pet_id w).1 = 400 ↔
     is_Some (docs w !! pet_id) ∧ json_body req ≫= Pet.fields_of = None)
  ∧ (status_of (update_pets req pet_id w).1 = 200 ↔
     is_Some (docs w !! pet_id) ∧ is_Some (json_body req ≫= Pet.fields_of)).
Proof.
  intros Hct. rewrite update_pets_run, Hct. cbn [Py.truthy].
  rewrite decide_True by reflexivity.
  destruct (docs w !! pet_id) as [old|].
  - destruct (json_body req) as [data|]; cbn [mbind option_bind];
      [destruct (Pet.fields_of data) as [f|]|];
      cbn [fst snd status_of status_code pet_response make_response].
    + split; [split; discriminate|]. split; [discriminate|].
      split; [split; [discriminate | by intros [_ ?]]|].
      split; [eauto | done].
    + split; [split; discriminate|]. split; [discriminate|].
      split; [split; [eauto | done]|].
      split; [discriminate | by intros [_ [? ?]]].
    + split; [split; discriminate|]. split; [discriminate|].
      split; [split; [eauto | done]|].
      split; [discriminate | by intros [_ [? ?]]].
  - cbn [fst snd status_of]. rewrite new_calls_app.
    split; [done|]. split; [done|].
    split; (split; [discriminate | by intros [[? ?] _]]).
Qed.

Lemma update_answer_order_witness :
  content_type (post (Some "application/json") None)
    = Some "application/json" ∧
  docs shop !! "7" = None ∧
  status_of (update_pets (post (Some "application/json") None) "7" shop).1
    = 404 ∧
  status_of (update_pets (post (Some "application/json") None) "1" shop).1
    = 400.
Proof.
  assert (H7 : docs shop !! "7" = None) by (vm_compute; reflexivity).
  assert (H1 : is_Some (docs shop !! "1"))
    by (exists fido; vm_compute; reflexivity).
  split; [reflexivity|]. split; [exact H7|]. split.
  - exact (proj2 (proj1 (update_answer_order
             (post (Some "application/json") None) "7" shop eq_refl)) H7).
  - exact (proj2 (proj1 (proj2 (proj2 (update_answer_order
             (post (Some "application/json") None) "1" shop eq_refl))))
             (conj H1 eq_refl)).
Defined.

(** ** The Content-Type is compared as a whole *)

Lemma json_with_parameter (suffix : string) :
  suffix ≠ "" →
  Py.truthy (Some ("application/json" +:+ suffix))
    = Some ("application/json" +:+ suffix)
  ∧ "application/json" +:+ suffix ≠ "application/json"
  ∧ "application/json" +:+ suffix ≠ "application/x-www-form-urlencoded".
Proof.
  intros Hne. split; [reflexivity|]. split.
  - intros Heq. apply Hne.
    apply (inj (String.app "application/json")).
    by rewrite append_empty_r.
  - cbv [String.append]. discriminate.
Qed.

(** X11. A Content-Type that is [application/json] followed by anything,
    such as a charset parameter, is not [application/json]: the update
    refuses it with HTTP 415 and the create with HTTP 400 and the message
    [Unsupported Content-Type: ] followed by the whole value; neither calls
    the store. *)
Theorem json_content_type_with_parameter_refused
    (req : Request) (pet_id suffix : string) (w : World) :
  suffix ≠ "" →
  content_type req = Some ("application/json" +:+ suffix) →
  update_pets req pet_id w =
    (Aborted 415 "Content-Type must be application/json", w)
  ∧ create_pets req w =
      (Aborted 400
         ("Unsupported Content-Type: " +:+ "application/json" +:+ suffix),
       w).
Proof.
  intros Hne Hct. destruct (json_with_parameter suffix Hne) as (Ht & Hj & Hf).
  rewrite update_pets_run, create_pets_run, Hct, Ht.
  rewrite (decide_False (P := _ = "application/json")) by exact Hj.
  by rewrite create_data_unsupported.
Qed.

Lemma json_content_type_with_parameter_refused_witness :
  "; charset=utf-8" ≠ "" ∧
  content_type (post (Some "application/json; charset=utf-8")
                     (Some rex_json))
    = Some ("application/json" +:+ "; charset=utf-8") ∧
  status_of (update_pets (post (Some "application/json; charset=utf-8")
                               (Some rex_json)) "1" shop).1 = 415.
Proof.
  assert (Hne : "; charset=utf-8" ≠ "") by discriminate.
  split; [exact Hne|]. split; [reflexivity|].
  by rewrite (proj1 (json_content_type_with_parameter_refused
               (post (Some "application/json; charset=utf-8")
                     (Some rex_json)) "1" "; charset=utf-8" shop
               Hne eq_refl)).
Defined.

(** X12. [check_content_type(media_type)] lets a request pass exactly when
    its Content-Type is [media_type] and is not empty, so a check against
    the empty media type lets nothing pass; a request it refuses gets HTTP
    400 when the Content-Type is missing or empty and HTTP 415, with a
    message ending in [media_type], otherwise.  It never calls the
    store. *)
Theorem check_content_type_passes_iff
    (req : Request) (media_type : string) (w : World) :
  (check_content_type req media_type w).2 = w
  ∧ ((check_content_type req media_type w).1 = Done tt ↔
     content_type req = Some media_type ∧ media_type ≠ "")
  ∧ ((check_content_type req media_type w).1 =
       Aborted 400 "No Content-Type set" ↔
     content_type req = None ∨ content_type req = Some "")
  ∧ ((check_content_type req media_type w).1 =
       Aborted 415 ("Content-Type must be " +:+ media_type) ↔
     ∃ ct : string,
       content_type req = Some ct ∧ ct ≠ "" ∧ ct ≠ media_type).
Proof.
  rewrite check_content_type_run.
  destruct (Py.truthy (content_type req)) as [ct|] eqn:Ht.
  - apply truthy_Some in Ht as [Hct Hne]. rewrite Hct.
    destruct (decide (ct = media_type)) as [<-|Hother]; cbn [fst snd].
    + split; [done|]. split; [done|].
      split; [split; [discriminate | by intros [?|[= ->]]]|].
      split; [discriminate | by intros (? & [= <-] & _ & ?)].
    + split; [done|].
      split; [split; [discriminate | by intros [[= ->] _]]|].
      split; [split; [discriminate | by intros [?|[= ->]]]|].
      split; [eauto | done].
  - apply truthy_None in Ht. cbn [fst snd]. split; [done|].
    split; [split; [discriminate|]|].
    { intros [Hct Hne]. rewrite Hct in Ht.
      destruct Ht as [Ht|Ht]; [discriminate Ht|]. injection Ht as Ht.
      exfalso. by apply Hne. }
    split; [done|].
    split; [discriminate|].
    intros (ct & Hct & Hne & _). rewrite Hct in Ht.
    destruct Ht as [Ht|Ht]; [discriminate Ht|]. injection Ht as Ht.
    exfalso. by apply Hne.
Qed.

(** ** Create from a form *)

Lemma fields_of_form (n c g : string) (a : bool) :
  Pet.fields_of (JObj (<["name" := JStr n]>
                      (<["category" := JStr c]>
                      (<["available" := JBool a]>
                      (<["gender" := JStr g]> ∅))))) =
  (λ g', {| name := n; category := c; available := a; gender := g' |})
    <$> Gender_of_name g.
Proof.
  unfold Pet.fields_of.
  rewrite lookup_insert_eq.
  rewrite (lookup_insert_ne _ "name" "category") by discriminate.
  rewrite lookup_insert_eq.
  rewrite (lookup_insert_ne _ "name" "available") by discriminate.
  rewrite (lookup_insert_ne _ "category" "available") by discriminate.
  rewrite lookup_insert_eq.
  rewrite (lookup_insert_ne _ "name" "gender") by discriminate.
  rewrite (lookup_insert_ne _ "category" "gender") by discriminate.
  rewrite (lookup_insert_ne _ "available" "gender") by discriminate.
  rewrite lookup_insert_eq.
  by destruct (Gender_of_name g).
Qed.

(** X13. A form post that lacks one of the fields [name], [category],
    [available], [gender] is refused with HTTP 400 before anything is
    called on the Pet or the store. *)
Theorem create_form_missing_field (req : Request) (w : World) :
  content_type req = Some "application/x-www-form-urlencoded" →
  Py.get "name" (form req) = None ∨ Py.get "category" (form req) = None ∨
  Py.get "available" (form req) = None ∨ Py.get "gender" (form req) = None →
  status_of (create_pets req w).1 = 400 ∧ (create_pets req w).2 = w.
Proof.
  intros Hct Hmissing. rewrite create_pets_run, Hct. cbn [Py.truthy].
  rewrite create_data_form_run.
  destruct (Py.get "name" (form req)), (Py.get "category" (form req)),
    (Py.get "available" (form req)), (Py.get "gender" (form req));
    try done.
  by destruct Hmissing as [?|[?|[?|?]]].
Qed.

Lemma create_form_missing_field_witness :
  content_type (post_form (Some "application/x-www-form-urlencoded")
                          [("name", "rex"); ("category", "dog")])
    = Some "application/x-www-form-urlencoded" ∧
  Py.get "available" [("name", "rex"); ("category", "dog")] = None ∧
  status_of
    (create_pets (post_form (Some "application/x-www-form-urlencoded")
                            [("name", "rex"); ("category", "dog")]) shop).1
    = 400.
Proof.
  split; [reflexivity|]. split; [reflexivity|].
  exact (proj1 (create_form_missing_field
           (post_form (Some "application/x-www-form-urlencoded")
                      [("name", "rex"); ("category", "dog")]) shop
           eq_refl (or_intror (or_intror (or_introl eq_refl))))).
Defined.

(** X14. A form post with the four fields creates a Pet with the posted
    name and category, [available] read from the posted string by the
    truthy tokens, and the gender of the posted name, under an id that no
    record had, and is answered HTTP 201; when the posted gender is not the
    name of a gender it is answered HTTP 400, [deserialize] having been
    called and [create] not. *)
Theorem create_from_form
    (req : Request) (w : World) (n c a g : string) :
  content_type req = Some "application/x-www-form-urlencoded" →
  Py.get "name" (form req) = Some n →
  Py.get "category" (form req) = Some c →
  Py.get "available" (form req) = Some a →
  Py.get "gender" (form req) = Some g →
  match Gender_of_name g with
  | Some g' =>
      let f := {| name := n; category := c;
                  available := parse_available a; gender := g' |} in
      let k := fresh (dom (docs w)) in
      docs w !! k = None ∧
      (create_pets req w).1 =
        Done {| status_code := 201;
                body := jsonify (Pet.serialize (mkPet (Some k) f));
                headers := [("Location", url_root req +:+ "/pets/" +:+ k)] |}
      ∧ docs (create_pets req w).2 = <[k := f]> (docs w)
  | None =>
      status_of (create_pets req w).1 = 400 ∧
      docs (create_pets req w).2 = docs w ∧
      ∃ data : json,
        new_calls w (create_pets req w).2 = [call_deserialize Pet.new data]
  end.
Proof.
  intros Hct Hn Hc Ha Hg. rewrite create_pets_run, Hct. cbn [Py.truthy].
  rewrite create_data_form_run, Hn, Hc, Ha, Hg. cbn [fst].
  rewrite fields_of_form. destruct (Gender_of_name g) as [g'|]; cbn [fmap].
  - cbn [option_fmap option_map fst snd docs]. split; [|done].
    apply not_elem_of_dom, is_fresh.
  - cbn [option_fmap option_map fst snd docs status_of].
    rewrite new_calls_app. eauto.
Qed.

Lemma create_from_form_witness :
  content_type (post_form (Some "application/x-www-form-urlencoded") rex_form)
    = Some "application/x-www-form-urlencoded" ∧
  Py.get "available" rex_form = Some "TRUE" ∧
  Gender_of_name "MALE" = Some MALE ∧
  docs (create_pets
          (post_form (Some "application/x-www-form-urlencoded") rex_form)
          shop).2 =
    <[fresh (dom (docs shop)) := rex]> (docs shop).
Proof.
  split; [reflexivity|]. split; [reflexivity|]. split; [reflexivity|].
  exact (proj2 (proj2 (create_from_form
           (post_form (Some "application/x-www-form-urlencoded") rex_form)
           shop "rex" "dog" "TRUE" "MALE"
           eq_refl eq_refl eq_refl eq_refl eq_refl))).
Defined.

(** ** The strings read as true *)

(** X15. The strings read as true for [available] are exactly the 29
    spellings of yes, y, true, t and 1 in capitals and small letters: the
    reading does not depend on the case of the letters, and nothing is
    trimmed or abbreviated, so a string of more than four characters, or
    the empty string, is read as false. *)
Theorem available_true_spellings (s : string) :
  (parse_available s = true ↔ s ∈ truthy_spellings)
  ∧ parse_available (Py.lower s) = parse_available s
  ∧ (parse_available s = true → (1 ≤ String.length s ≤ 4)%nat)
  ∧ length truthy_spellings = 29%nat.
Proof.
  split; [apply parse_available_spellings|].
  split; [apply parse_available_lower|]. split; [|reflexivity].
  intros Htrue. apply parse_available_spellings in Htrue.
  unfold truthy_spellings in Htrue.
  repeat (apply elem_of_cons in Htrue as [->|Htrue]);
    try (by apply elem_of_nil in Htrue); cbn; lia.
Qed.

Lemma available_true_spellings_witness :
  parse_available "tRuE" = true ∧ (1 ≤ String.length "tRuE" ≤ 4)%nat.
Proof.
  assert (Htrue : parse_available "tRuE" = true) by (vm_compute; reflexivity).
  split; [exact Htrue|].
  exact (proj1 (proj2 (proj2 (available_true_spellings "tRuE"))) Htrue).
Defined.
